(** * PokemonCardScanner: the detection / rectification / matching core of [app.py]

    A shallow embedding of the control flow of [src/app.py].  The third-party
    libraries the program calls (NumPy, OpenCV, PIL, imagehash, Annoy, the
    YOLO detector) are not part of the repository: each one is an interface
    record.  The theorems hold for every implementation of the interfaces,
    with the documented contract of a library as an explicit hypothesis where
    a proof needs it; small doubles of the libraries serve for the examples.

    Exceptions are values of [result]; the progress messages the program
    prints and its drawing on [result_output], an image it never returns, are
    left out, except for the distance printed by [find_matching_card]. *)

From Stdlib Require Import String.
From Stdlib Require Import List Bool Arith ZArith QArith Qcanon Lia Lqa.
From Stdlib Require Import Permutation Sorted.
Import ListNotations.
Local Open Scope string_scope.
Local Open Scope list_scope.

(** ** Python values and exceptions *)

(** NumPy and Python floating-point values.  The program only compares them,
    scales them and produces [0.0] and [1.0]; a finite float is a rational,
    and canonical rationals have Leibniz equality.  Rounding is not
    modelled. *)
Definition float := Qc.

Inductive exn : Set :=
| AttributeError
| IndexError
| TypeError
| ValueError
| OSError
(* cv2.error *)
| CvError.

Inductive result (A : Type) : Type :=
| Ok (a : A)
| Raise (e : exn).
Arguments Ok {A} a.
Arguments Raise {A} e.

Definition bind {A B : Type} (m : result A) (k : A -> result B) : result B :=
  match m with
  | Ok a => k a
  | Raise e => Raise e
  end.

Notation "x <- m ;; k" := (bind m (fun x => k))
  (at level 61, m at next level, right associativity).

Definition map_result {A B : Type} (f : A -> B) (m : result A) : result B :=
  match m with
  | Ok a => Ok (f a)
  | Raise e => Raise e
  end.

Fixpoint mapM {A B : Type} (f : A -> result B) (l : list A) : result (list B) :=
  match l with
  | [] => Ok []
  | a :: l' => b <- f a ;; bs <- mapM f l' ;; Ok (b :: bs)
  end.

(** ** NumPy *)

(** [a[idx]] with an integer index array: the rows of [a] at the positions
    listed in [idx]; a position outside [a] raises [IndexError]. *)
Definition fancy_index {A : Type} (a : list A) (idx : list nat) : result (list A) :=
  mapM (fun i => match nth_error a i with
                 | Some x => Ok x
                 | None => Raise IndexError
                 end) idx.

(** The part of NumPy whose result depends on the implementation:
    [np.argsort] returns the indices that would sort its argument; which of
    two equal keys comes first is not specified for the default sort kind. *)
Record NumPy : Type := {
  argsort : list float -> list nat
}.

Definition key_at (ks : list float) (i : nat) : float := nth i ks 0%Qc.

Record argsort_contract (np : NumPy) : Prop := {
  argsort_perm : forall ks, Permutation (argsort np ks) (seq 0 (length ks));
  argsort_sorted : forall ks, StronglySorted Qcle (map (key_at ks) (argsort np ks))
}.
Arguments argsort_perm {np} _ ks.
Arguments argsort_sorted {np} _ ks.

(** An array sorted by a key. *)
Definition sorted_by {A : Type} (key : A -> float) : list A -> Prop :=
  StronglySorted (fun p q => (key p <= key q)%Qc).

(** ** PointOrderer: [sort_rectangle_points] *)

(** A row [[x, y]] of the [(4, 2)] array of corner points. *)
Definition point := (float * float)%type.
Definition px (p : point) : float := fst p.
Definition py (p : point) : float := snd p.

Section PointOrderer.
Variable np : NumPy.

Definition sort_rectangle_points (points : list point) : result (list point) :=
  (* points = points[np.argsort(points[:, 1])] *)
  points <- fancy_index points (argsort np (map py points)) ;;
  (* top_points = points[:2][np.argsort(points[:2, 0])] *)
  top_points <- fancy_index (firstn 2 points) (argsort np (map px (firstn 2 points))) ;;
  (* bottom_points = points[2:][np.argsort(points[2:, 0])][::-1] *)
  bottom_sorted <- fancy_index (skipn 2 points) (argsort np (map px (skipn 2 points))) ;;
  let bottom_points := rev bottom_sorted in
  (* np.vstack((top_points, bottom_points)) *)
  Ok (top_points ++ bottom_points).

End PointOrderer.

(** Two of the four points lie strictly above (smaller [y]) the other two:
    the split of the [y]-sorted array into a top and a bottom pair does not
    cut through a tie. *)
Definition top_bottom_separated (ps : list point) : Prop :=
  exists a b c d,
    Permutation ps [a; b; c; d] /\
    (py a < py c)%Qc /\ (py a < py d)%Qc /\ (py b < py c)%Qc /\ (py b < py d)%Qc.

(** A reference [argsort]: stable insertion sort on the indices, which is
    what NumPy's default sort does on arrays of fewer than 17 elements. *)
Fixpoint insert_index (ks : list float) (i : nat) (sorted : list nat) : list nat :=
  match sorted with
  | [] => [i]
  | j :: rest =>
      if Qclt_le_dec (key_at ks i) (key_at ks j)
      then i :: j :: rest
      else j :: insert_index ks i rest
  end.

Definition insertion_argsort (ks : list float) : list nat :=
  fold_left (fun sorted i => insert_index ks i sorted) (seq 0 (length ks)) [].

Definition numpy_insertion : NumPy := {| argsort := insertion_argsort |}.

(** The point with integer coordinates [(x, y)]. *)
Definition pt (x y : Z) : point := (Q2Qc (inject_Z x), Q2Qc (inject_Z y)).

(** All orderings of a list, by insertion at every position. *)
Fixpoint inserts {A : Type} (a : A) (l : list A) : list (list A) :=
  match l with
  | [] => [[a]]
  | x :: l' => (a :: l) :: map (cons x) (inserts a l')
  end.

Fixpoint orderings {A : Type} (l : list A) : list (list A) :=
  match l with
  | [] => [[]]
  | a :: l' => flat_map (inserts a) (orderings l')
  end.

(** The corners of the axis-aligned card outline of the scenario in the
    specification, in two different input orders. *)
Definition card_corners : list point := [pt 100 140; pt 0 0; pt 0 140; pt 100 0].
Definition card_corners' : list point := [pt 0 140; pt 100 140; pt 100 0; pt 0 0].

(** A card rotated by 45 degrees: the left and the right corner have the same
    [y], and they are the second and third point of the [y]-sorted array. *)
Definition diamond : list point := [pt 1 0; pt 0 1; pt 2 1; pt 1 2].
Definition diamond' : list point := [pt 1 0; pt 2 1; pt 0 1; pt 1 2].

(** ** Images, masks and OpenCV *)

(** A pixel position of an OpenCV contour (an [int32] pair) and a contour or
    polygon (an array of shape [(n, 1, 2)]). *)
Definition ipoint := (Z * Z)%type.
Definition contour := list ipoint.

(** A colour image: an array of shape [(rows, cols, 3)] of [uint8]. *)
Definition pixel := (Z * Z * Z)%type.
Definition image := list (list pixel).

(** A single-channel [uint8] raster and the detector's float mask tensor. *)
Definition mask := list (list Z).
Definition mask_tensor := list (list float).

(** A [3 x 3] transform matrix. *)
Definition matrix := list (list float).

Definition shape0 {A : Type} (a : list (list A)) : nat := length a.
Definition shape1 {A : Type} (a : list (list A)) : nat :=
  match a with
  | [] => 0
  | row :: _ => length row
  end.

Definition has_shape {A : Type} (rows cols : nat) (a : list (list A)) : Prop :=
  length a = rows /\ Forall (fun row => length row = cols) a.

(** The OpenCV functions the program calls; what they compute is left open.
    The decoder can fail on what an upload holds; none of the others raises
    on the arguments the program passes. *)
Record OpenCV : Type := {
  (* cv2.imdecode(buf, cv2.IMREAD_COLOR): None when the bytes are no image;
     cv2.error on a buffer it refuses, as it does the empty one *)
  imdecode : list Z -> result (option image);
  (* cv2.cvtColor(img, cv2.COLOR_BGR2RGB) *)
  cvtColor_BGR2RGB : image -> image;
  (* cv2.resize(img, (width, height)) *)
  resize : image -> nat * nat -> image;
  (* cv2.morphologyEx(mask, cv2.MORPH_CLOSE, kernel) *)
  morphologyEx_close : mask -> mask -> mask;
  (* cv2.findContours(mask, cv2.RETR_EXTERNAL, cv2.CHAIN_APPROX_SIMPLE)[0] *)
  findContours_external : mask -> list contour;
  contourArea : contour -> float;
  convexHull : contour -> contour;
  (* cv2.arcLength(curve, closed) *)
  arcLength : contour -> bool -> float;
  (* cv2.approxPolyDP(curve, epsilon, closed) *)
  approxPolyDP : contour -> float -> bool -> contour;
  (* cv2.getPerspectiveTransform(src, dst) *)
  getPerspectiveTransform : list point -> list point -> matrix;
  (* cv2.warpPerspective(src, M, (width, height), flags=cv2.INTER_LANCZOS4) *)
  warpPerspective_lanczos4 : image -> matrix -> nat * nat -> image
}.

(** [cv2.warpPerspective] returns an image of the requested size [dsize]. *)
Definition warp_contract (cv : OpenCV) : Prop :=
  forall src M width height,
    has_shape height width (warpPerspective_lanczos4 cv src M (width, height)).

(** The segmentation model: the masks [model.predict(...)[0].masks] holds,
    [None] when no instance was detected ([masks] is then [None] and has no
    [data]). *)
Record Detector : Type := {
  predict_masks : image -> option (list mask_tensor)
}.

Definition Z2f (z : Z) : float := Q2Qc (inject_Z z).
Definition nat2f (n : nat) : float := Z2f (Z.of_nat n).
Definition frac (n d : Z) : float := (Z2f n / Z2f d)%Qc.

(** [np.linspace(start, stop, num)]. *)
Definition linspace (start stop : float) (num : nat) : list float :=
  map (fun i => (start + nat2f i * ((stop - start) / nat2f (num - 1)))%Qc) (seq 0 num).

(** [np.ones((rows, cols), np.uint8)]. *)
Definition ones (rows cols : nat) : mask := repeat (repeat 1%Z cols) rows.

(** [a.astype(np.uint8) * 255] on one float entry: truncation towards zero,
    then [uint8] arithmetic. *)
Definition astype_uint8 (v : float) : Z := (Z.quot (Qnum v) (Zpos (Qden v))) mod 256.
Definition to_binary_mask (m : mask_tensor) : mask :=
  map (map (fun v => (astype_uint8 v * 255) mod 256)%Z) m.

(** Python's [max(l, key=key)] on a non-empty list [first :: l]: the first
    element whose key is maximal. *)
Fixpoint max_by {A : Type} (key : A -> float) (best : A) (l : list A) : A :=
  match l with
  | [] => best
  | x :: l' => max_by key (if Qclt_le_dec (key best) (key x) then x else best) l'
  end.

(** ** MaskToQuadrilateral: [process_full_mask] *)

Section MaskToQuadrilateral.
Variable cv : OpenCV.

(** The [for epsilon_factor in np.linspace(0.01, 0.1, 10)] loop with its
    [break]: [approx] is the polygon computed last. *)
Fixpoint epsilon_sweep (hull : contour) (factors : list float) (approx : contour) : contour :=
  match factors with
  | [] => approx
  | epsilon_factor :: rest =>
      let epsilon := (epsilon_factor * arcLength cv hull true)%Qc in
      let approx := approxPolyDP cv hull epsilon true in
      if Nat.eqb (length approx) 4 then approx else epsilon_sweep hull rest approx
  end.

Definition process_full_mask (m : mask) : option contour :=
  let kernel := ones 5 5 in
  let mask_closed := morphologyEx_close cv m kernel in
  let contours := findContours_external cv mask_closed in
  match contours with
  | [] => None
  | first :: others =>
      let largest_contour := max_by (contourArea cv) first others in
      let hull := convexHull cv largest_contour in
      let epsilon := (frac 2 100 * arcLength cv largest_contour true)%Qc in
      let approx := approxPolyDP cv largest_contour epsilon true in
      let approx :=
        if negb (Nat.eqb (length approx) 4)
        then epsilon_sweep hull (linspace (frac 1 100) (frac 1 10) 10) approx
        else approx in
      if negb (Nat.eqb (length approx) 4) then None else Some approx
  end.

End MaskToQuadrilateral.

(** ** RectificationTransformer and the mask loop: [detect_edges_and_corners] *)

Definition target_size : nat * nat := (640%nat, 640%nat).
Definition card_width : nat := 500.
Definition card_height : nat := 700.

Definition dst_points : list point :=
  [pt 0 0;
   pt (Z.of_nat card_width - 1) 0;
   pt (Z.of_nat card_width - 1) (Z.of_nat card_height - 1);
   pt 0 (Z.of_nat card_height - 1)].

Section Detection.
Variable cv : OpenCV.
Variable np : NumPy.
Variable yolo : Detector.

(** Lines 110-134: the body of [if rectangle is not None], from the scaling
    of the polygon to the warped card. *)
Definition rectify (img img_rgb : image) (rectangle : contour) : result image :=
  let scale_x := (nat2f (shape1 img) / nat2f (fst target_size))%Qc in
  let scale_y := (nat2f (shape0 img) / nat2f (snd target_size))%Qc in
  let rectangle_original :=
    map (fun p : ipoint => ((Z2f (fst p) * scale_x)%Qc, (Z2f (snd p) * scale_y)%Qc)) rectangle in
  rect_points <- sort_rectangle_points np rectangle_original ;;
  let M := getPerspectiveTransform cv rect_points dst_points in
  Ok (warpPerspective_lanczos4 cv img_rgb M (card_width, card_height)).

(** The loop [for i, mask in enumerate(masks[:10])], on the masks it is given. *)
Fixpoint mask_loop (img img_rgb : image) (masks : list mask_tensor)
    (detected_cards : list image) : result (list image) :=
  match masks with
  | [] => Ok detected_cards
  | m :: rest =>
      let mask_np := to_binary_mask m in
      match process_full_mask cv mask_np with
      | Some rectangle =>
          warped_image <- rectify img img_rgb rectangle ;;
          mask_loop img img_rgb rest (detected_cards ++ [warped_image])
      | None => mask_loop img img_rgb rest detected_cards
      end
  end.

(** [Ok None] is the [return None] of an upload that does not decode. *)
Definition detect_edges_and_corners (image_bytes : list Z) : result (option (list image)) :=
  img <- imdecode cv image_bytes ;;
  match img with
  | None => Ok None
  | Some img =>
      let img_rgb := cvtColor_BGR2RGB cv img in
      let img_downscaled := resize cv img_rgb target_size in
      match predict_masks yolo img_downscaled with
      | None => Raise AttributeError
      | Some masks =>
          detected_cards <- mask_loop img img_rgb (firstn 10 masks) [] ;;
          Ok (Some detected_cards)
      end
  end.

End Detection.

(** ** PIL and imagehash *)

(** A PIL image: its mode and its raster, one list of band values per pixel. *)
Record pil_image : Type := {
  mode : string;
  bands : list (list (list Z))
}.

Record PIL : Type := {
  (* Image.fromarray(array) *)
  fromarray : image -> pil_image;
  (* Image.convert(mode) *)
  convert : pil_image -> string -> pil_image
}.

(** [ImageHash.hash]: a square array of booleans. *)
Definition image_hash := list (list bool).

(** The objects [compute_robust_hash] is called with: a PIL image by
    [find_matching_card], an [ImageHash] by [build_annoy_index]. *)
Inductive pyobj : Type :=
| PILImage (im : pil_image)
| ImageHashObj (h : image_hash).

Record ImageHashLib : Type := {
  (* imagehash.phash(image, hash_size) *)
  phash : pyobj -> nat -> result image_hash;
  (* imagehash.average_hash(image, hash_size) *)
  average_hash : pyobj -> nat -> result image_hash;
  (* imagehash.dhash(image, hash_size) *)
  dhash : pyobj -> nat -> result image_hash;
  (* imagehash.hex_to_hash(hexstr) *)
  hex_to_hash : string -> result image_hash
}.

(** On a PIL image each hash function returns [hash_size * hash_size] bits. *)
Definition hash_contract (ih : ImageHashLib) : Prop :=
  forall (hash_fn : ImageHashLib -> pyobj -> nat -> result image_hash),
    In hash_fn [phash; average_hash; dhash] ->
    forall im hash_size, exists h,
      hash_fn ih (PILImage im) hash_size = Ok h /\ has_shape hash_size hash_size h.

(** The hash functions start with [image.convert(...)], which an [ImageHash]
    does not have. *)
Definition rejects_hash_objects (ih : ImageHashLib) : Prop :=
  forall (hash_fn : ImageHashLib -> pyobj -> nat -> result image_hash),
    In hash_fn [phash; average_hash; dhash] ->
    forall h hash_size, hash_fn ih (ImageHashObj h) hash_size = Raise AttributeError.

(** Two runs of the program see the libraries as they behave in the one
    run and in the other.  imagehash and PIL keep nothing between calls:
    the hash functions return the same hash for the same image, whichever
    the run, and the same array or image converts to the same image. *)
Definition same_hashes (ih ih' : ImageHashLib) : Prop :=
  forall (hash_fn : ImageHashLib -> pyobj -> nat -> result image_hash),
    In hash_fn [phash; average_hash; dhash] ->
    forall im hash_size,
      hash_fn ih (PILImage im) hash_size = hash_fn ih' (PILImage im) hash_size.

Definition same_conversions (pil pil' : PIL) : Prop :=
  (forall a, fromarray pil a = fromarray pil' a) /\
  (forall im m, convert pil im m = convert pil' im m).

(** [float(i)] for a NumPy boolean. *)
Definition float_of_bool (b : bool) : float := if b then 1%Qc else 0%Qc.

(** [np.array([float(i) for i in h.hash.flatten()], dtype=np.float32)]. *)
Definition hash_vector (h : image_hash) : list float := map float_of_bool (concat h).

(** ** FingerprintGenerator: [compute_robust_hash] *)

Section Fingerprint.
Variable ih : ImageHashLib.

Definition compute_robust_hash (image : pyobj)
  : result (list float * list float * list float) :=
  phash <- phash ih image 32 ;;
  ahash <- average_hash ih image 32 ;;
  dhash <- dhash ih image 32 ;;
  let phash_vec := hash_vector phash in
  let ahash_vec := hash_vector ahash in
  let dhash_vec := hash_vector dhash in
  Ok (phash_vec, ahash_vec, dhash_vec).

End Fingerprint.

(** ** Annoy and the persisted files *)

(** An [AnnoyIndex]: its dimension and metric, the items added so far with
    their positions, and the forest size [build] was called with (0 before
    the call).  The forest itself is the library's: how many trees it ends
    up with and what a search over them finds is not part of the record. *)
Record annoy_index : Type := {
  dimension : nat;
  metric : string;
  items : list (nat * list float);
  trees_requested : nat
}.

Definition AnnoyIndex (f : nat) (metric : string) : annoy_index :=
  {| dimension := f; metric := metric; items := []; trees_requested := 0 |}.

(** [index.add_item(i, vector)]; a vector of the wrong length raises
    [IndexError]. *)
Definition add_item (index : annoy_index) (i : nat) (vector : list float)
  : result annoy_index :=
  if Nat.eqb (length vector) (dimension index)
  then Ok {| dimension := dimension index; metric := metric index;
             items := items index ++ [(i, vector)];
             trees_requested := trees_requested index |}
  else Raise IndexError.

(** [index.build(n_trees)]: the items are kept, the request is noted. *)
Definition build (index : annoy_index) (n_trees : nat) : annoy_index :=
  {| dimension := dimension index; metric := metric index;
     items := items index; trees_requested := n_trees |}.

(** What Annoy decides by itself. *)
Record Annoy : Type := {
  (* the approximate search of a built index, with include_distances=True:
     positions and distances of the neighbours found *)
  search : annoy_index -> list float -> nat -> list nat * list float;
  (* index.load(path), for the index that loads and a file that was written
     under another dimension or metric: OSError when the size of the file
     is no multiple of the node size of the loading index, otherwise the
     items it reads out of the foreign nodes *)
  load_foreign : annoy_index -> annoy_index -> result (list (nat * list float))
}.

(** [index.get_nns_by_vector(vector, n, include_distances=True)]. *)
Definition get_nns_by_vector (an : Annoy) (index : annoy_index) (vector : list float)
    (n : nat) : result (list nat * list float) :=
  if Nat.eqb (length vector) (dimension index)
  then Ok (search an index vector n)
  else Raise IndexError.

(** An entry of [hash_db.json]. *)
Record stored_hashes : Type := {
  phash_hex : string;
  ahash_hex : string;
  dhash_hex : string
}.

(** The JSON object of the reference database, in insertion order. *)
Definition hash_db := list (string * stored_hashes).

(** The two files the builder and the matcher share.  [hash_db.json] ships
    with the program and is taken to be in place; the index file is there
    once a build has written it. *)
Record storage : Type := {
  hash_db_json : hash_db;
  annoy_index_file : option annoy_index
}.

(** [index.load(path)].  A missing file raises [OSError]; a file written
    under the dimension and the metric of the loading index is read back as
    it was saved; on any other file the outcome is the library's. *)
Definition load (an : Annoy) (index : annoy_index) (st : storage) : result annoy_index :=
  match annoy_index_file st with
  | None => Raise OSError
  | Some saved =>
      if Nat.eqb (dimension saved) (dimension index)
         && String.eqb (metric saved) (metric index)
      then Ok saved
      else
        read <- load_foreign an index saved ;;
        Ok {| dimension := dimension index; metric := metric index;
              items := read; trees_requested := trees_requested saved |}
  end.

(** [l[i]] for a non-negative [i]. *)
Definition getitem {A : Type} (l : list A) (i : nat) : result A :=
  match nth_error l i with
  | Some x => Ok x
  | None => Raise IndexError
  end.

(** ** ReferenceIndexBuilder: [build_annoy_index] *)

Section Index.
Variable ih : ImageHashLib.
Variable an : Annoy.
Variable pil : PIL.

(** The loop [for i, (card_id, stored_hashes) in enumerate(hash_db.items())]. *)
Fixpoint add_embeddings (entries : hash_db) (i : nat) (index : annoy_index)
    (card_ids : list string) : result (annoy_index * list string) :=
  match entries with
  | [] => Ok (index, card_ids)
  | (card_id, stored) :: rest =>
      stored_phash <- hex_to_hash ih (phash_hex stored) ;;
      stored_ahash <- hex_to_hash ih (ahash_hex stored) ;;
      stored_dhash <- hex_to_hash ih (dhash_hex stored) ;;
      hashes <- compute_robust_hash ih (ImageHashObj stored_phash) ;;
      let '(phash_embedding, ahash_embedding, dhash_embedding) := hashes in
      let embedding := phash_embedding ++ ahash_embedding ++ dhash_embedding in
      index <- add_item index i embedding ;;
      add_embeddings rest (S i) index (card_ids ++ [card_id])
  end.

(** Returns the index and the card ids, and the storage with the index file
    written. *)
Definition build_annoy_index (st : storage)
  : result (annoy_index * list string * storage) :=
  let hash_db := hash_db_json st in
  let index := AnnoyIndex 3072 "euclidean" in
  built <- add_embeddings hash_db 0 index [] ;;
  let '(index, card_ids) := built in
  let index := build index 10 in
  let st := {| hash_db_json := hash_db_json st; annoy_index_file := Some index |} in
  Ok (index, card_ids, st).

(** The embedding the specification asks the builder to insert for an entry:
    the three stored hashes decoded and concatenated in the order [phash],
    [ahash], [dhash]. *)
Definition embedding_of_stored_hashes (stored : stored_hashes) : result (list float) :=
  stored_phash <- hex_to_hash ih (phash_hex stored) ;;
  stored_ahash <- hex_to_hash ih (ahash_hex stored) ;;
  stored_dhash <- hex_to_hash ih (dhash_hex stored) ;;
  Ok (hash_vector stored_phash ++ hash_vector stored_ahash ++ hash_vector stored_dhash).

(** Two entries with the same card identifier and the same [phash] string. *)
Definition same_card_and_phash (e e' : string * stored_hashes) : Prop :=
  fst e = fst e' /\ phash_hex (snd e) = phash_hex (snd e').

(** The [ahash] and [dhash] strings of the entry are valid hexadecimal. *)
Definition decodable (e : string * stored_hashes) : Prop :=
  exists a d, hex_to_hash ih (ahash_hex (snd e)) = Ok a /\
              hex_to_hash ih (dhash_hex (snd e)) = Ok d.

(** ** NearestNeighborMatcher: [find_matching_card] *)

(** What a call leaves behind: the value it returns and the distance it
    prints in its [Closest match: ... with distance: ...] line. *)
Record match_run : Type := {
  returned : string;
  printed_distance : float
}.

(** Lines 240-256: the lookup of an embedding in the persisted index. *)
Definition match_embedding (st : storage) (detected_embedding : list float)
  : result match_run :=
  index <- load an (AnnoyIndex 3072 "euclidean") st ;;
  nearest_neighbors <- get_nns_by_vector an index detected_embedding 5 ;;
  let hash_db := hash_db_json st in
  best_match_index <- getitem (fst nearest_neighbors) 0 ;;
  best_match_card_id <- getitem (map fst hash_db) best_match_index ;;
  distance <- getitem (snd nearest_neighbors) 0 ;;
  Ok {| returned := best_match_card_id; printed_distance := distance |}.

(** Lines 229-232: the detected card as an RGB PIL image. *)
Definition to_rgb (detected_image : image) : pil_image :=
  let detected_pil := fromarray pil detected_image in
  let detected_pil :=
    if String.eqb (mode detected_pil) "P" then convert pil detected_pil "RGBA"
    else detected_pil in
  convert pil detected_pil "RGB".

(** Lines 234-238: the fingerprint of the detected card. *)
Definition detected_embedding (detected_image : image) : result (list float) :=
  let detected_pil := to_rgb detected_image in
  hashes <- compute_robust_hash ih (PILImage detected_pil) ;;
  let '(detected_phash, detected_ahash, detected_dhash) := hashes in
  Ok (detected_phash ++ detected_ahash ++ detected_dhash).

Definition find_matching_card (st : storage) (detected_image : image)
  : result match_run :=
  embedding <- detected_embedding detected_image ;;
  match_embedding st embedding.

End Index.

(** ** The request handler: [upload_image] *)

Record upload : Type := {
  filename : string;
  stream : list Z
}.

(** [request.files]. *)
Definition request := list (string * upload).

Inductive json : Type :=
| JError (message : string)
| JCards (cards : list (nat * string)).

(** A response: its JSON body and its status code. *)
Definition response := (json * nat)%type.

Fixpoint lookup {A : Type} (key : string) (l : list (string * A)) : option A :=
  match l with
  | [] => None
  | (k, v) :: rest => if String.eqb k key then Some v else lookup key rest
  end.

Section Upload.
Variable cv : OpenCV.
Variable np : NumPy.
Variable yolo : Detector.
Variable ih : ImageHashLib.
Variable an : Annoy.
Variable pil : PIL.

(** The loop [for i, card_image in enumerate(detected_cards)]; an entry is
    [{'card_index': i, 'closest_match_id': match_id}]. *)
Fixpoint match_loop (st : storage) (cards : list image) (i : nat)
    (matches : list (nat * string)) : result (list (nat * string)) :=
  match cards with
  | [] => Ok matches
  | card_image :: rest =>
      run <- find_matching_card ih an pil st card_image ;;
      let match_id := returned run in
      match_loop st rest (S i) (matches ++ [(i, match_id)])
  end.

Definition upload_image (st : storage) (req : request) : result response :=
  match lookup "image" req with
  | None => Ok (JError "No file part", 400%nat)
  | Some file =>
      if String.eqb (filename file) ""
      then Ok (JError "No selected file", 400%nat)
      else
        detected_cards <- detect_edges_and_corners cv np yolo (stream file) ;;
        match detected_cards with
        | None => Raise TypeError
        | Some detected_cards =>
            matches <- match_loop st detected_cards 0 [] ;;
            Ok (JCards matches, 200%nat)
        end
  end.

End Upload.

(** The quadrilaterals [process_full_mask] finds in a list of masks, failed
    masks left out. *)
Definition found_quadrilaterals (cv : OpenCV) (masks : list mask_tensor) : list contour :=
  flat_map (fun m => match process_full_mask cv (to_binary_mask m) with
                     | Some rectangle => [rectangle]
                     | None => []
                     end) masks.

(** [enumerate(l)] counted from [i]. *)
Definition enumerate_from {A : Type} (i : nat) (l : list A) : list (nat * A) :=
  combine (seq i (length l)) l.

(** The polygon rescaled from detection resolution to the resolution of
    [img], as [rectify] does before it orders the corners. *)
Definition scaled_corners (img : image) (rectangle : contour) : list point :=
  map (fun p : ipoint =>
         ((Z2f (fst p) * (nat2f (shape1 img) / nat2f (fst target_size)))%Qc,
          (Z2f (snd p) * (nat2f (shape0 img) / nat2f (snd target_size)))%Qc))
      rectangle.

(** Twice the signed area of the triangle [p q r]. *)
Definition cross (p q r : point) : float :=
  ((px q - px p) * (py r - py p) - (py q - py p) * (px r - px p))%Qc.

(** The four points lie on one line. *)
Definition collinear4 (quad : list point) : Prop :=
  match quad with
  | [a; b; c; d] =>
      cross a b c = 0%Qc /\ cross a b d = 0%Qc /\ cross a c d = 0%Qc /\ cross b c d = 0%Qc
  | _ => False
  end.

Definition ipoint_to_point (p : ipoint) : point := pt (fst p) (snd p).

(** ** Test doubles for the libraries *)

Definition blank_image (rows cols : nat) : image :=
  repeat (repeat (0, 0, 0)%Z cols) rows.

(** An OpenCV double scripted by the number of rows of the mask: no rows, no
    contour; one row, a triangle; two rows, four points on a line; otherwise
    the outline of an upright card.  Polygons are approximated by themselves
    and every warp returns a black image of the requested size.  The decoder
    refuses the empty buffer, takes a buffer that starts with the JPEG
    marker [FF D8] for a black photograph and any other for no image. *)
Definition scripted_contours (m : mask) : list contour :=
  match length m with
  | 0%nat => []
  | 1%nat => [[(0, 0); (10, 0); (0, 10)]]%Z
  | 2%nat => [[(0, 0); (10, 0); (20, 0); (30, 0)]]%Z
  | _ => [[(0, 0); (100, 0); (100, 140); (0, 140)]]%Z
  end.

Definition scripted_cv : OpenCV := {|
  imdecode := fun buf => match buf with
                         | [] => Raise CvError
                         | 255 :: 216 :: _ => Ok (Some (blank_image 140 100))
                         | _ => Ok None
                         end%Z;
  cvtColor_BGR2RGB := map (map (fun p : pixel => let '(b, g, r) := p in (r, g, b)));
  resize := fun _ size => blank_image (snd size) (fst size);
  morphologyEx_close := fun m _ => m;
  findContours_external := scripted_contours;
  contourArea := fun c => nat2f (length c);
  convexHull := fun c => c;
  arcLength := fun c _ => nat2f (length c);
  approxPolyDP := fun c _ _ => c;
  getPerspectiveTransform := fun _ _ => [[0; 0; 0]; [0; 0; 0]; [0; 0; 1]]%Qc;
  warpPerspective_lanczos4 := fun _ _ size => blank_image (snd size) (fst size)
|}.

(** Mask tensors with a given number of rows. *)
Definition tensor_rows (n : nat) : mask_tensor := repeat [1%Qc] n.

(** A detector double that reports the given masks on every image. *)
Definition scripted_detector (masks : list mask_tensor) : Detector :=
  {| predict_masks := fun _ => Some masks |}.

(** A PIL double: [fromarray] gives an RGB image, [convert] relabels it. *)
Definition plain_pil : PIL := {|
  fromarray := fun a =>
    {| mode := "RGB";
       bands := map (map (fun p : pixel => let '(r, g, b) := p in [r; g; b])) a |};
  convert := fun im m => {| mode := m; bands := bands im |}
|}.

(** [imagehash.hex_to_hash] on strings whose bit count is a square: four
    bits per hexadecimal digit, most significant first, cut into rows. *)
Definition hex_digit (c : Ascii.ascii) : option nat :=
  let n := Ascii.nat_of_ascii c in
  if (48 <=? n)%nat && (n <=? 57)%nat then Some (n - 48)%nat
  else if (97 <=? n)%nat && (n <=? 102)%nat then Some (n - 87)%nat
  else if (65 <=? n)%nat && (n <=? 70)%nat then Some (n - 55)%nat
  else None.

Definition nibble_bits (d : nat) : list bool :=
  [Nat.testbit d 3; Nat.testbit d 2; Nat.testbit d 1; Nat.testbit d 0].

Fixpoint hex_bits (s : string) : result (list bool) :=
  match s with
  | EmptyString => Ok []
  | String c s' =>
      match hex_digit c with
      | Some d => bits <- hex_bits s' ;; Ok (nibble_bits d ++ bits)
      | None => Raise ValueError
      end
  end.

Fixpoint chunks {A : Type} (fuel n : nat) (l : list A) : list (list A) :=
  match fuel, l with
  | S fuel', _ :: _ => firstn n l :: chunks fuel' n (skipn n l)
  | _, _ => []
  end.

Definition hex_decode (s : string) : result image_hash :=
  match s with
  | EmptyString => Raise ValueError
  | _ =>
      bits <- hex_bits s ;;
      let hash_size := Nat.sqrt (length bits) in
      Ok (chunks (length bits) hash_size bits)
  end.

(** Hash doubles on PIL images: bit [(r, c)] is the parity of band [k] of the
    pixel at row [r], column [c]. *)
Definition band_at (im : pil_image) (r c k : nat) : Z :=
  nth k (nth c (nth r (bands im) []) []) 0%Z.

Definition parity_hash (k : nat) (im : pil_image) (hash_size : nat) : image_hash :=
  map (fun r => map (fun c => Z.odd (band_at im r c k)) (seq 0 hash_size))
      (seq 0 hash_size).

(** An imagehash double that, like the library, fails on an object without a
    [convert] method. *)
Definition on_image (k : nat) (o : pyobj) (hash_size : nat) : result image_hash :=
  match o with
  | PILImage im => Ok (parity_hash k im hash_size)
  | ImageHashObj _ => Raise AttributeError
  end.

Definition strict_imagehash : ImageHashLib := {|
  phash := on_image 0;
  average_hash := on_image 1;
  dhash := on_image 2;
  hex_to_hash := hex_decode
|}.

(** Squared Euclidean distance. *)
Definition sq_dist (u v : list float) : float :=
  fold_right Qcplus 0%Qc (map (fun ab : float * float => ((fst ab - snd ab) * (fst ab - snd ab))%Qc)
                              (combine u v)).

Fixpoint insert_by_distance (x : nat * float) (l : list (nat * float)) : list (nat * float) :=
  match l with
  | [] => [x]
  | y :: rest =>
      if Qclt_le_dec (snd x) (snd y) then x :: y :: rest
      else y :: insert_by_distance x rest
  end.

(** An Annoy double: exhaustive search.  It reports the squared distance,
    which orders the candidates as the Euclidean distance does and is zero
    exactly when the Euclidean distance is.  It refuses every file written
    under another dimension or metric. *)
Definition linear_scan : Annoy := {|
  search := fun index v n =>
    let scored := map (fun it : nat * list float => (fst it, sq_dist (snd it) v))
                      (items index) in
    let ranked := fold_left (fun acc x => insert_by_distance x acc) scored [] in
    let nearest := firstn n ranked in
    (map fst nearest, map snd nearest);
  load_foreign := fun _ _ => Raise OSError
|}.

(** The fingerprint with all bits clear. *)
Definition zero_embedding : list float := repeat 0%Qc 3072.

(** A stored hash of 256 hexadecimal digits: 64 times the four given ones. *)
Definition hex256 (digits : string) : string := String.concat "" (repeat digits 64).

(** A reference database of one card with its persisted index. *)
Definition one_card_db : hash_db :=
  [("base1-4", {| phash_hex := hex256 "ffff"; ahash_hex := hex256 "0000";
                  dhash_hex := hex256 "0f0f" |})].

Definition one_card_storage : storage := {|
  hash_db_json := one_card_db;
  annoy_index_file :=
    Some {| dimension := 3072; metric := "euclidean";
            items := [(0%nat, zero_embedding)]; trees_requested := 10 |}
|}.

(** The same card with other stored average and difference hashes. *)
Definition one_card_db' : hash_db :=
  [("base1-4", {| phash_hex := hex256 "ffff"; ahash_hex := hex256 "1234";
                  dhash_hex := hex256 "abcd" |})].

Definition one_card_storage' : storage :=
  {| hash_db_json := one_card_db'; annoy_index_file := None |}.

(** Two cards that share the perceptual hash and differ in the other two. *)
Definition two_card_storage : storage := {|
  hash_db_json :=
    [("base1-4", {| phash_hex := hex256 "ffff"; ahash_hex := hex256 "0000";
                    dhash_hex := hex256 "0f0f" |});
     ("base1-5", {| phash_hex := hex256 "ffff"; ahash_hex := hex256 "1234";
                    dhash_hex := hex256 "abcd" |})];
  annoy_index_file := None
|}.

(** An upload of a photograph. *)
Definition photo_request : request :=
  [("image", {| filename := "photo.jpg"; stream := [255; 216; 255]%Z |})].

(** A reference database of six cards with its persisted index: the
    fingerprint at position [k] has its first [k] bits set. *)
Definition leading_ones (k : nat) : list float :=
  repeat 1%Qc k ++ repeat 0%Qc (3072 - k).

Definition six_card_db : hash_db :=
  map (fun id => (id, {| phash_hex := hex256 "ffff"; ahash_hex := hex256 "0000";
                         dhash_hex := hex256 "0f0f" |}))
      ["base1-1"; "base1-2"; "base1-3"; "base1-4"; "base1-5"; "base1-6"].

Definition six_card_storage : storage := {|
  hash_db_json := six_card_db;
  annoy_index_file :=
    Some {| dimension := 3072; metric := "euclidean";
            items := map (fun k => (k, leading_ones k)) (seq 0 6); trees_requested := 10 |}
|}.

(** A card image that is black but for the blue band of one pixel: under
    the hash doubles its fingerprint has the last bit set, one bit away from
    the first card of the six. *)
Definition spot_card : image :=
  map (fun r => map (fun c => (0, 0, if Nat.eqb r 31 && Nat.eqb c 31 then 1 else 0)%Z)
                    (seq 0 500))
      (seq 0 700).

Definition last_bit_embedding : list float := repeat 0%Qc 3071 ++ [1%Qc].

(** ** Further definitions for the properties of the code *)

(** The polygons [process_full_mask] tries, in the order it tries them: the
    approximation of the largest contour at 2% of its perimeter, then the
    approximations of its hull at 1%, 2%, ..., 10% of the hull's perimeter. *)
Definition sweep_candidates (cv : OpenCV) (hull : contour) : list contour :=
  map (fun k => approxPolyDP cv hull (frac k 100 * arcLength cv hull true)%Qc true)
      [1; 2; 3; 4; 5; 6; 7; 8; 9; 10]%Z.

Definition polygon_candidates (cv : OpenCV) (m : mask) : list contour :=
  match findContours_external cv (morphologyEx_close cv m (ones 5 5)) with
  | [] => []
  | first :: others =>
      let largest_contour := max_by (contourArea cv) first others in
      approxPolyDP cv largest_contour
        (frac 2 100 * arcLength cv largest_contour true)%Qc true
      :: sweep_candidates cv (convexHull cv largest_contour)
  end.

Definition four_vertices (polygon : contour) : bool := Nat.eqb (length polygon) 4.

(** The corners of an upright rectangle, clockwise from the top-left one. *)
Definition upright_rectangle (x0 y0 x1 y1 : float) : list point :=
  [(x0, y0); (x1, y0); (x1, y1); (x0, y1)].

(** A mask tensor whose entries are all [0.0] or [1.0], and a raster whose
    entries are all 0 or 255. *)
Definition zero_one_tensor (m : mask_tensor) : Prop :=
  Forall (Forall (fun v => v = 0%Qc \/ v = 1%Qc)) m.

Definition binary_mask (m : mask) : Prop :=
  Forall (Forall (fun z => z = 0%Z \/ z = 255%Z)) m.

(** The keys of [hash_db.json], in order: [list(hash_db.keys())]. *)
Definition card_keys (st : storage) : list string := map fst (hash_db_json st).

(** An upload whose bytes are no image, and an upload without bytes. *)
Definition broken_request : request :=
  [("image", {| filename := "broken.jpg"; stream := [110; 111; 112]%Z |})].

Definition empty_request : request :=
  [("image", {| filename := "empty.jpg"; stream := [] |})].

(** A reference database whose index file was written by an index of 768
    dimensions. *)
Definition stale_index_storage : storage := {|
  hash_db_json := one_card_db;
  annoy_index_file :=
    Some {| dimension := 768; metric := "euclidean";
            items := [(0%nat, repeat 0%Qc 768)]; trees_requested := 10 |}
|}.

(** A database whose first entry has a stored [ahash] that is no
    hexadecimal string. *)
Definition damaged_storage : storage := {|
  hash_db_json :=
    [("base1-4", {| phash_hex := hex256 "0000"; ahash_hex := "xyz";
                    dhash_hex := hex256 "abcd" |});
     ("base1-5", {| phash_hex := hex256 "ffff"; ahash_hex := hex256 "0000";
                    dhash_hex := hex256 "0f0f" |})];
  annoy_index_file := None
|}.

(* ================================================================== *)
(** * Properties *)
(* ================================================================== *)

(** ** Generic facts *)

Lemma fancy_index_in_range {A : Type} (a : list A) (d : A) (idx : list nat) :
  Forall (fun i => i < length a)%nat idx ->
  fancy_index a idx = Ok (map (fun i => nth i a d) idx).
Proof.
  unfold fancy_index.
  induction 1 as [|i idx Hi _ IH]; simpl; [reflexivity|].
  rewrite (nth_error_nth' a d Hi); simpl.
  now rewrite IH.
Qed.

Lemma inserts_spec {A : Type} (a : A) (l1 l2 : list A) :
  In (l1 ++ a :: l2) (inserts a (l1 ++ l2)).
Proof.
  induction l1 as [|x l1 IH]; simpl.
  - destruct l2; simpl; auto.
  - right. now apply in_map.
Qed.

Lemma orderings_complete {A : Type} (l l' : list A) :
  Permutation l l' -> In l' (orderings l).
Proof.
  revert l'; induction l as [|a l IH]; intros l' HP.
  - apply Permutation_nil in HP; subst; simpl; auto.
  - destruct (Permutation_vs_cons_inv (Permutation_sym HP)) as (l1 & l2 & ->).
    apply Permutation_cons_app_inv in HP.
    simpl. apply in_flat_map. exists (l1 ++ l2); split.
    + now apply IH.
    + apply inserts_spec.
Qed.

Lemma length_4_inv {A : Type} (l : list A) :
  length l = 4%nat -> exists a b c d, l = [a; b; c; d].
Proof.
  destruct l as [|a [|b [|c [|d [|e l]]]]]; simpl; try discriminate.
  intros _; now exists a, b, c, d.
Qed.

Lemma length_2_inv {A : Type} (l : list A) :
  length l = 2%nat -> exists a b, l = [a; b].
Proof.
  destruct l as [|a [|b [|c l]]]; simpl; try discriminate.
  intros _; now exists a, b.
Qed.

Lemma map_nth_seq {A : Type} (a : list A) (d : A) :
  map (fun i => nth i a d) (seq 0 (length a)) = a.
Proof.
  induction a as [|x a IH]; simpl; [reflexivity|].
  f_equal. rewrite <- seq_shift, map_map. exact IH.
Qed.

Lemma StronglySorted_map {A B : Type} (R : B -> B -> Prop) (f : A -> B) (l : list A) :
  StronglySorted R (map f l) <-> StronglySorted (fun x y => R (f x) (f y)) l.
Proof.
  induction l as [|x l IH]; simpl; split; intros H; try constructor;
    inversion H; subst; try (now apply IH); rewrite Forall_map in *; assumption.
Qed.

Lemma StronglySorted_ext_in {A : Type} (R R' : A -> A -> Prop) (l : list A) :
  (forall x y, In x l -> In y l -> R x y -> R' x y) ->
  StronglySorted R l -> StronglySorted R' l.
Proof.
  induction l as [|x l IH]; intros HR H; constructor; inversion H; subst.
  - apply IH; [|assumption]. intros; apply HR; simpl; auto.
  - rewrite Forall_forall in *. intros y Hy. apply HR; simpl; auto.
Qed.

(** ** NumPy: sorting an array by a key through [argsort] *)

Section ArgsortFacts.
Variable np : NumPy.
Hypothesis np_ok : argsort_contract np.

Lemma argsort_in_range (ks : list float) :
  Forall (fun i => i < length ks)%nat (argsort np ks).
Proof.
  apply Forall_forall; intros i Hi.
  apply (Permutation_in _ (argsort_perm np_ok ks)) in Hi.
  apply in_seq in Hi; lia.
Qed.

Lemma sort_by_key {A : Type} (key : A -> float) (a : list A) :
  exists s, fancy_index a (argsort np (map key a)) = Ok s /\
            Permutation a s /\ sorted_by key s.
Proof.
  destruct a as [|d a'] eqn:Ea.
  - pose proof (argsort_perm np_ok (map key (@nil A))) as HP; simpl in HP.
    apply Permutation_sym, Permutation_nil in HP.
    simpl; rewrite HP. exists []; repeat split; simpl; auto. constructor.
  - rewrite <- Ea. clear Ea a'.
    set (idx := argsort np (map key a)).
    assert (Hr : Forall (fun i => i < length a)%nat idx).
    { unfold idx. rewrite <- (length_map key a). apply argsort_in_range. }
    exists (map (fun i => nth i a d) idx); split; [|split].
    + now apply fancy_index_in_range.
    + rewrite <- (map_nth_seq a d) at 1.
      apply Permutation_map, Permutation_sym.
      unfold idx. rewrite <- (length_map key a). apply (argsort_perm np_ok).
    + unfold sorted_by. apply StronglySorted_map.
      pose proof (argsort_sorted np_ok (map key a)) as HS; fold idx in HS.
      apply (proj1 (StronglySorted_map Qcle (key_at (map key a)) idx)) in HS.
      revert HS; apply StronglySorted_ext_in.
      intros i j Hi Hj. rewrite Forall_forall in Hr.
      unfold key_at.
      rewrite (nth_indep (map key a) 0%Qc (key d)), (nth_indep (map key a) 0%Qc (key d) (n:=j))
        by (rewrite length_map; auto).
      now rewrite !map_nth.
Qed.

End ArgsortFacts.
Arguments sort_by_key {np} np_ok {A} key a.

(** ** PointOrderer *)

Ltac qc_order := unfold Qcle, Qclt in *; lra.

Lemma sorted_by_4 {A : Type} (key : A -> float) (a b c d : A) :
  sorted_by key [a; b; c; d] ->
  (key a <= key b /\ key a <= key c /\ key a <= key d /\
   key b <= key c /\ key b <= key d /\ key c <= key d)%Qc.
Proof.
  intros H.
  repeat match goal with
         | H : sorted_by _ (_ :: _) |- _ => inversion H; clear H; subst
         | H : StronglySorted _ (_ :: _) |- _ => inversion H; clear H; subst
         | H : Forall _ (_ :: _) |- _ => inversion H; clear H; subst
         end.
  repeat split; assumption.
Qed.

Lemma sorted_by_2 {A : Type} (key : A -> float) (a b : A) :
  sorted_by key [a; b] -> (key a <= key b)%Qc.
Proof.
  intros H; inversion H as [|? ? _ HF]; subst.
  now inversion HF.
Qed.

Lemma point_eq (p q : point) : px p = px q -> py p = py q -> p = q.
Proof.
  destruct p, q; unfold px, py; simpl; congruence.
Qed.

Section PointOrdererFacts.
Variable np : NumPy.
Hypothesis np_ok : argsort_contract np.

(** The second half of [sort_rectangle_points], on the [y]-sorted array. *)
Let order_pairs (points : list point) : result (list point) :=
  top_points <- fancy_index (firstn 2 points) (argsort np (map px (firstn 2 points))) ;;
  bottom_sorted <- fancy_index (skipn 2 points) (argsort np (map px (skipn 2 points))) ;;
  Ok (top_points ++ rev bottom_sorted).

Lemma sort_rectangle_points_unfold (ps : list point) :
  sort_rectangle_points np ps =
  (s <- fancy_index ps (argsort np (map py ps)) ;; order_pairs s).
Proof. reflexivity. Qed.

(** Sorting a pair by [x]: the result does not depend on the order of the
    pair when the two points agree on [y]. *)
Lemma sort_pair_by_x (p q : point) :
  exists l r, fancy_index [p; q] (argsort np (map px [p; q])) = Ok [l; r] /\
              Permutation [p; q] [l; r] /\ (px l <= px r)%Qc.
Proof.
  destruct (sort_by_key np_ok px [p; q]) as (s & Hs & HP & HS).
  destruct (length_2_inv s) as (l & r & ->).
  { now rewrite <- (Permutation_length HP). }
  exists l, r; repeat split; auto. now apply sorted_by_2 in HS.
Qed.

Lemma sort_pair_by_x_swap (p q : point) :
  py p = py q ->
  fancy_index [q; p] (argsort np (map px [q; p])) =
  fancy_index [p; q] (argsort np (map px [p; q])).
Proof.
  intros Hy.
  destruct (sort_pair_by_x p q) as (l & r & -> & HP & Hx).
  destruct (sort_pair_by_x q p) as (l' & r' & -> & HP' & Hx').
  apply orderings_complete in HP, HP'; simpl in HP, HP'.
  assert (Hpq : px p = px q -> p = q) by (intros; now apply point_eq).
  destruct HP as [E|[E|[]]], HP' as [E'|[E'|[]]];
    injection E as <- <-; injection E' as <- <-; try reflexivity;
    assert (p = q) by (apply Hpq, Qcle_antisym; assumption); now subst.
Qed.

Lemma order_pairs_swap_top (a b c d : point) :
  py a = py b -> order_pairs [b; a; c; d] = order_pairs [a; b; c; d].
Proof.
  intros Hy. unfold order_pairs; simpl firstn; simpl skipn.
  now rewrite (sort_pair_by_x_swap a b Hy).
Qed.

Lemma order_pairs_swap_bottom (a b c d : point) :
  py c = py d -> order_pairs [a; b; d; c] = order_pairs [a; b; c; d].
Proof.
  intros Hy. unfold order_pairs; simpl firstn; simpl skipn.
  now rewrite (sort_pair_by_x_swap c d Hy).
Qed.

Lemma order_pairs_shape (a b c d : point) :
  exists tl tr br bl,
    order_pairs [a; b; c; d] = Ok [tl; tr; br; bl] /\
    Permutation [a; b] [tl; tr] /\ Permutation [c; d] [bl; br] /\
    (px tl <= px tr)%Qc /\ (px bl <= px br)%Qc.
Proof.
  destruct (sort_pair_by_x a b) as (tl & tr & Ht & HPt & Hxt).
  destruct (sort_pair_by_x c d) as (bl & br & Hb & HPb & Hxb).
  exists tl, tr, br, bl. unfold order_pairs; simpl firstn; simpl skipn.
  rewrite Ht, Hb; simpl. auto.
Qed.

(** Two [y]-sorted arrangements of the same separated points differ at most
    by a swap inside the top pair and a swap inside the bottom pair, each
    swap exchanging two points of equal [y]. *)
Lemma y_sorted_arrangements (a b c d : point) (s' : list point) :
  sorted_by py [a; b; c; d] -> (py b < py c)%Qc ->
  Permutation [a; b; c; d] s' -> sorted_by py s' ->
  order_pairs s' = order_pairs [a; b; c; d].
Proof.
  intros HS Hsep HP HS'.
  apply sorted_by_4 in HS.
  apply orderings_complete in HP; simpl in HP.
  repeat (destruct HP as [<-|HP]; [apply sorted_by_4 in HS'|]); try contradiction;
    try (exfalso; qc_order); try reflexivity.
  all: try rewrite (order_pairs_swap_bottom _ _ c d) by (apply Qcle_antisym; tauto).
  all: try rewrite (order_pairs_swap_top a b) by (apply Qcle_antisym; tauto).
  all: reflexivity.
Qed.

Lemma separated_sorted (ps : list point) (a b c d : point) :
  top_bottom_separated ps -> Permutation ps [a; b; c; d] ->
  sorted_by py [a; b; c; d] -> (py b < py c)%Qc.
Proof.
  intros (u & v & w & z & HP & H1 & H2 & H3 & H4) HP' HS.
  apply sorted_by_4 in HS.
  assert (HQ : Permutation [u; v; w; z] [a; b; c; d])
    by (etransitivity; [symmetry; eassumption | assumption]).
  apply orderings_complete in HQ; simpl in HQ.
  repeat (destruct HQ as [HQ|HQ]; [injection HQ as <- <- <- <-|]); try contradiction;
    qc_order.
Qed.

(** On four points the function always returns, with the same points. *)
Lemma sort_rectangle_points_total (ps : list point) :
  length ps = 4%nat ->
  exists out, sort_rectangle_points np ps = Ok out /\ Permutation ps out.
Proof.
  intros Hlen.
  destruct (sort_by_key np_ok py ps) as (s & Hs & HPs & _).
  destruct (length_4_inv s) as (a & b & c & d & ->).
  { now rewrite <- (Permutation_length HPs). }
  destruct (order_pairs_shape a b c d) as (tl & tr & br & bl & Hout & Ht & Hb & _).
  exists [tl; tr; br; bl].
  rewrite sort_rectangle_points_unfold, Hs; simpl bind. split; [exact Hout|].
  etransitivity; [exact HPs|].
  change [a; b; c; d] with ([a; b] ++ [c; d]).
  change [tl; tr; br; bl] with ([tl; tr] ++ [br; bl]).
  apply Permutation_app; [assumption|].
  etransitivity; [exact Hb|]. apply perm_swap.
Qed.

(** C4 (amended).  For four points of which two lie strictly above the other
    two, every ordering of the same points is sorted into the same sequence
    top-left, top-right, bottom-right, bottom-left: the top pair by ascending
    [x], the bottom pair by descending [x]. *)
Theorem sort_rectangle_points_order_independent (ps qs : list point) :
  length ps = 4%nat -> Permutation ps qs -> top_bottom_separated ps ->
  exists tl tr br bl,
    sort_rectangle_points np ps = Ok [tl; tr; br; bl] /\
    sort_rectangle_points np qs = Ok [tl; tr; br; bl] /\
    Permutation ps [tl; tr; br; bl] /\
    (px tl <= px tr /\ px bl <= px br)%Qc /\
    (py tl < py br /\ py tl < py bl /\ py tr < py br /\ py tr < py bl)%Qc.
Proof.
  intros Hlen HP Hsep.
  destruct (sort_by_key np_ok py ps) as (s & Hs & HPs & HSs).
  destruct (sort_by_key np_ok py qs) as (s' & Hs' & HPs' & HSs').
  destruct (length_4_inv s) as (a & b & c & d & ->).
  { now rewrite <- (Permutation_length HPs). }
  pose proof (separated_sorted ps a b c d Hsep HPs HSs) as Hbc.
  assert (HP' : Permutation [a; b; c; d] s').
  { exact (Permutation_trans (Permutation_sym HPs) (Permutation_trans HP HPs')). }
  pose proof (y_sorted_arrangements a b c d s' HSs Hbc HP' HSs') as Heq.
  destruct (order_pairs_shape a b c d) as (tl & tr & br & bl & Hout & Ht & Hb & Hx).
  exists tl, tr, br, bl.
  rewrite !sort_rectangle_points_unfold, Hs, Hs'; simpl bind.
  rewrite Heq, Hout.
  split; [reflexivity|]. split; [reflexivity|].
  split; [|split; [exact Hx|]].
  - etransitivity; [exact HPs|].
    change [a; b; c; d] with ([a; b] ++ [c; d]).
    change [tl; tr; br; bl] with ([tl; tr] ++ [br; bl]).
    apply Permutation_app; [assumption|].
    etransitivity; [exact Hb|]. apply perm_swap.
  - apply sorted_by_4 in HSs.
    apply orderings_complete in Ht, Hb; simpl in Ht, Hb.
    destruct Ht as [E|[E|[]]], Hb as [E'|[E'|[]]];
      injection E as <- <-; injection E' as <- <-; qc_order.
Qed.

End PointOrdererFacts.

(** The reference [argsort] meets the contract. *)
Lemma insert_index_perm (ks : list float) (i : nat) (l : list nat) :
  Permutation (insert_index ks i l) (i :: l).
Proof.
  induction l as [|j l IH]; simpl; [reflexivity|].
  destruct (Qclt_le_dec _ _); [reflexivity|].
  rewrite IH. apply perm_swap.
Qed.

Lemma insert_index_sorted (ks : list float) (i : nat) (l : list nat) :
  StronglySorted (fun a b => (key_at ks a <= key_at ks b)%Qc) l ->
  StronglySorted (fun a b => (key_at ks a <= key_at ks b)%Qc) (insert_index ks i l).
Proof.
  induction 1 as [|j l HS IH HF]; simpl.
  - repeat constructor.
  - destruct (Qclt_le_dec _ _) as [Hlt|Hle].
    + constructor; [now constructor|].
      constructor; [now apply Qclt_le_weak|].
      revert HF; apply Forall_impl; intros k Hk.
      apply Qclt_le_weak in Hlt. eapply Qcle_trans; eassumption.
    + constructor; [assumption|].
      apply (Permutation_Forall (Permutation_sym (insert_index_perm ks i l))).
      now constructor.
Qed.

Lemma insertion_argsort_fold (ks : list float) (l acc : list nat) :
  Permutation (fold_left (fun sorted i => insert_index ks i sorted) l acc) (l ++ acc) /\
  (StronglySorted (fun a b => (key_at ks a <= key_at ks b)%Qc) acc ->
   StronglySorted (fun a b => (key_at ks a <= key_at ks b)%Qc)
     (fold_left (fun sorted i => insert_index ks i sorted) l acc)).
Proof.
  revert acc; induction l as [|i l IH]; intros acc; simpl.
  - split; [reflexivity | trivial].
  - destruct (IH (insert_index ks i acc)) as [HP HS]; split.
    + rewrite HP, insert_index_perm. symmetry. apply Permutation_middle.
    + intros H. now apply HS, insert_index_sorted.
Qed.

Lemma numpy_insertion_ok : argsort_contract numpy_insertion.
Proof.
  split; intros ks; simpl; unfold insertion_argsort.
  - destruct (insertion_argsort_fold ks (seq 0 (length ks)) []) as [HP _].
    now rewrite app_nil_r in HP.
  - apply StronglySorted_map.
    apply (insertion_argsort_fold ks (seq 0 (length ks)) []). constructor.
Qed.

Lemma sort_rectangle_points_order_independent_witness :
  exists tl tr br bl,
    sort_rectangle_points numpy_insertion card_corners = Ok [tl; tr; br; bl] /\
    sort_rectangle_points numpy_insertion card_corners' = Ok [tl; tr; br; bl] /\
    Permutation card_corners [tl; tr; br; bl] /\
    (px tl <= px tr /\ px bl <= px br)%Qc /\
    (py tl < py br /\ py tl < py bl /\ py tr < py br /\ py tr < py bl)%Qc.
Proof.
  apply (sort_rectangle_points_order_independent numpy_insertion numpy_insertion_ok).
  - reflexivity.
  - unfold card_corners, card_corners'.
    apply Permutation_trans with (pt 0 140 :: [pt 100 140; pt 0 0; pt 100 0]).
    + apply Permutation_trans with (pt 100 140 :: pt 0 140 :: [pt 0 0; pt 100 0]).
      * apply perm_skip, perm_swap.
      * apply perm_swap.
    + do 2 apply perm_skip. apply perm_swap.
  - exists (pt 0 0), (pt 100 0), (pt 100 140), (pt 0 140). split.
    + unfold card_corners.
      apply Permutation_trans with (pt 0 0 :: [pt 100 140; pt 0 140; pt 100 0]).
      * apply perm_swap.
      * apply perm_skip.
        apply Permutation_trans with (pt 100 140 :: [pt 100 0; pt 0 140]).
        -- apply perm_skip, perm_swap.
        -- apply Permutation_trans with (pt 100 0 :: [pt 100 140; pt 0 140]).
           ++ apply perm_swap.
           ++ reflexivity.
    + repeat split; reflexivity.
Defined.

(** The scenario of the specification: the corners of the axis-aligned
    rectangle come out as TL, TR, BR, BL. *)
Example sort_rectangle_points_card_corners :
  sort_rectangle_points numpy_insertion card_corners
  = Ok [pt 0 0; pt 100 0; pt 100 140; pt 0 140] /\
  sort_rectangle_points numpy_insertion card_corners'
  = Ok [pt 0 0; pt 100 0; pt 100 140; pt 0 140].
Proof. split; reflexivity. Qed.

(** C4 as stated fails: the two orderings of the rotated card are sorted into
    different sequences. *)
Lemma sort_rectangle_points_order_dependent :
  length diamond = 4%nat /\ Permutation diamond diamond' /\
  sort_rectangle_points numpy_insertion diamond
  = Ok [pt 0 1; pt 1 0; pt 2 1; pt 1 2] /\
  sort_rectangle_points numpy_insertion diamond'
  = Ok [pt 1 0; pt 2 1; pt 1 2; pt 0 1] /\
  sort_rectangle_points numpy_insertion diamond
  <> sort_rectangle_points numpy_insertion diamond'.
Proof.
  split; [reflexivity|]. split; [apply perm_skip, perm_swap|].
  split; [reflexivity|]. split; [reflexivity|].
  vm_compute. discriminate.
Qed.

(** ** The rotated card under any [argsort] *)

Ltac qc_absurd :=
  match goal with
  | H : (?a <= ?b)%Qc |- _ => exfalso; apply (Qcle_not_lt _ _ H); reflexivity
  end.

Section AnyArgsort.
Variable np : NumPy.
Hypothesis np_ok : argsort_contract np.

Lemma argsort_sorted_keys (ks : list float) :
  sorted_by (key_at ks) (argsort np ks).
Proof.
  unfold sorted_by.
  apply (proj1 (StronglySorted_map Qcle (key_at ks) (argsort np ks))).
  apply (argsort_sorted np_ok).
Qed.

Lemma argsort_pair (k1 k2 : float) :
  ((k1 < k2)%Qc -> argsort np [k1; k2] = [0; 1]%nat) /\
  ((k2 < k1)%Qc -> argsort np [k1; k2] = [1; 0]%nat).
Proof.
  pose proof (Permutation_sym (argsort_perm np_ok [k1; k2])) as HP.
  pose proof (argsort_sorted_keys [k1; k2]) as HS.
  apply orderings_complete in HP; simpl in HP.
  destruct HP as [E|[E|[]]]; rewrite <- E in *; apply sorted_by_2 in HS;
    unfold key_at in HS; simpl in HS; split; intros Hlt;
    try reflexivity; exfalso; revert Hlt; now apply Qcle_not_lt.
Qed.

Lemma argsort_diamond_rows :
  argsort np [Z2f 0; Z2f 1; Z2f 1; Z2f 2] = [0; 1; 2; 3]%nat \/
  argsort np [Z2f 0; Z2f 1; Z2f 1; Z2f 2] = [0; 2; 1; 3]%nat.
Proof.
  pose proof (Permutation_sym (argsort_perm np_ok [Z2f 0; Z2f 1; Z2f 1; Z2f 2])) as HP.
  pose proof (argsort_sorted_keys [Z2f 0; Z2f 1; Z2f 1; Z2f 2]) as HS.
  apply orderings_complete in HP; simpl in HP.
  repeat (destruct HP as [E|HP];
          [rewrite <- E in *; apply sorted_by_4 in HS; unfold key_at in HS; simpl in HS;
           destruct HS as (? & ? & ? & ? & ? & ?);
           first [now left | now right | qc_absurd] |]).
  contradiction.
Qed.

(** Whatever [argsort] does with equal keys, the two orderings of the rotated
    card are sorted into different sequences. *)
Lemma sort_rectangle_points_diamond :
  sort_rectangle_points np diamond <> sort_rectangle_points np diamond'.
Proof.
  unfold sort_rectangle_points.
  change (map py diamond) with [Z2f 0; Z2f 1; Z2f 1; Z2f 2].
  change (map py diamond') with [Z2f 0; Z2f 1; Z2f 1; Z2f 2].
  destruct argsort_diamond_rows as [E|E]; rewrite E;
    unfold diamond, diamond'; cbn [fancy_index mapM nth_error bind firstn skipn map px py fst snd pt];
    repeat first [ rewrite (proj1 (argsort_pair _ _)) by reflexivity
                 | rewrite (proj2 (argsort_pair _ _)) by reflexivity ];
    cbn [fancy_index mapM nth_error bind rev app]; intros H; injection H; intros; discriminate.
Qed.

End AnyArgsort.

(** ** MaskToQuadrilateral *)

Lemma process_full_mask_Some (cv : OpenCV) (m : mask) (quad : contour) :
  process_full_mask cv m = Some quad -> length quad = 4%nat.
Proof.
  unfold process_full_mask.
  destruct (findContours_external cv _) as [|first others]; [discriminate|].
  cbv zeta.
  match goal with
  | |- (if negb (Nat.eqb (length ?a) 4) then _ else _) = _ -> _ =>
      destruct (Nat.eqb_spec (length a) 4) as [E|E]; simpl
  end; [|discriminate].
  now intros [= <-].
Qed.

Lemma mask_loop_skip (cv : OpenCV) (np : NumPy) (img img_rgb : image)
    (m : mask_tensor) (rest : list mask_tensor) (cards : list image) :
  process_full_mask cv (to_binary_mask m) = None ->
  mask_loop cv np img img_rgb (m :: rest) cards = mask_loop cv np img img_rgb rest cards.
Proof.
  intros H; simpl. now rewrite H.
Qed.

(** C3.  A mask with at least one contour gives either a polygon of exactly
    four vertices or [None]; in the second case the loop over the masks goes
    on with the remaining masks and the cards collected so far. *)
Theorem process_full_mask_quadrilateral_or_none (cv : OpenCV) (np : NumPy)
    (mask_np : mask) :
  findContours_external cv (morphologyEx_close cv mask_np (ones 5 5)) <> [] ->
  (exists quad, process_full_mask cv mask_np = Some quad /\ length quad = 4%nat) \/
  (process_full_mask cv mask_np = None /\
   forall m img img_rgb rest cards,
     to_binary_mask m = mask_np ->
     mask_loop cv np img img_rgb (m :: rest) cards =
     mask_loop cv np img img_rgb rest cards).
Proof.
  intros _.
  destruct (process_full_mask cv mask_np) as [quad|] eqn:E.
  - left. exists quad; split; [reflexivity|]. now apply (process_full_mask_Some cv _ _ E).
  - right. split; [reflexivity|]. intros m img img_rgb rest cards <-.
    now apply mask_loop_skip.
Qed.

Lemma process_full_mask_quadrilateral_or_none_witness :
  findContours_external scripted_cv
    (morphologyEx_close scripted_cv (to_binary_mask (tensor_rows 1)) (ones 5 5)) <> [] /\
  ((exists quad, process_full_mask scripted_cv (to_binary_mask (tensor_rows 1)) = Some quad /\
                 length quad = 4%nat) \/
   (process_full_mask scripted_cv (to_binary_mask (tensor_rows 1)) = None /\
    forall m img img_rgb rest cards,
      to_binary_mask m = to_binary_mask (tensor_rows 1) ->
      mask_loop scripted_cv numpy_insertion img img_rgb (m :: rest) cards =
      mask_loop scripted_cv numpy_insertion img img_rgb rest cards)).
Proof.
  assert (H : findContours_external scripted_cv
    (morphologyEx_close scripted_cv (to_binary_mask (tensor_rows 1)) (ones 5 5)) <> [])
    by (simpl; discriminate).
  split; [exact H|].
  exact (process_full_mask_quadrilateral_or_none scripted_cv numpy_insertion
           (to_binary_mask (tensor_rows 1)) H).
Defined.

(** ** RectificationTransformer *)

Lemma rectify_returns (cv : OpenCV) (np : NumPy) (img img_rgb : image)
    (rectangle : contour) :
  argsort_contract np -> length rectangle = 4%nat ->
  exists rect_points,
    sort_rectangle_points np (scaled_corners img rectangle) = Ok rect_points /\
    Permutation (scaled_corners img rectangle) rect_points /\
    rectify cv np img img_rgb rectangle =
      Ok (warpPerspective_lanczos4 cv img_rgb
            (getPerspectiveTransform cv rect_points dst_points)
            (card_width, card_height)).
Proof.
  intros Hnp Hlen.
  destruct (sort_rectangle_points_total np Hnp (scaled_corners img rectangle))
    as (out & Hout & HP).
  { unfold scaled_corners. now rewrite length_map. }
  exists out. repeat split; try assumption.
  unfold rectify. fold (scaled_corners img rectangle).
  now rewrite Hout.
Qed.

(** C2 (amended).  The transformer has no degeneracy test: for every polygon
    of four points, collinear or not, it returns the image that OpenCV warps
    with the matrix computed from the four ordered corners. *)
Theorem rectify_has_no_degeneracy_test (cv : OpenCV) (np : NumPy)
    (img img_rgb : image) (rectangle : contour) :
  argsort_contract np -> length rectangle = 4%nat ->
  exists rect_points,
    Permutation (scaled_corners img rectangle) rect_points /\
    rectify cv np img img_rgb rectangle =
      Ok (warpPerspective_lanczos4 cv img_rgb
            (getPerspectiveTransform cv rect_points dst_points)
            (card_width, card_height)).
Proof.
  intros Hnp Hlen.
  destruct (rectify_returns cv np img img_rgb rectangle Hnp Hlen)
    as (rect_points & _ & HP & Hr).
  exists rect_points; split; assumption.
Qed.

Lemma rectify_has_no_degeneracy_test_witness :
  exists rect_points,
    Permutation (scaled_corners (blank_image 140 100)
                   [(0, 0); (10, 0); (20, 0); (30, 0)]%Z) rect_points /\
    rectify scripted_cv numpy_insertion (blank_image 140 100) (blank_image 140 100)
      [(0, 0); (10, 0); (20, 0); (30, 0)]%Z =
      Ok (warpPerspective_lanczos4 scripted_cv (blank_image 140 100)
            (getPerspectiveTransform scripted_cv rect_points dst_points)
            (card_width, card_height)).
Proof.
  apply (rectify_has_no_degeneracy_test scripted_cv numpy_insertion).
  - exact numpy_insertion_ok.
  - reflexivity.
Defined.

(** C2 as stated fails: four points on the line [y = 0] are rectified into a
    card image, no failure is signalled. *)
Lemma rectify_accepts_collinear_points :
  collinear4 (map ipoint_to_point [(0, 0); (10, 0); (20, 0); (30, 0)]%Z) /\
  collinear4 (scaled_corners (blank_image 140 100) [(0, 0); (10, 0); (20, 0); (30, 0)]%Z) /\
  rectify scripted_cv numpy_insertion (blank_image 140 100) (blank_image 140 100)
    [(0, 0); (10, 0); (20, 0); (30, 0)]%Z = Ok (blank_image 700 500).
Proof.
  split; [|split].
  - repeat split; apply Qc_is_canon; reflexivity.
  - repeat split; apply Qc_is_canon; vm_compute; reflexivity.
  - reflexivity.
Qed.

Lemma scripted_cv_warp : warp_contract scripted_cv.
Proof.
  intros src M width height; simpl. split.
  - apply repeat_length.
  - apply Forall_forall. intros row Hrow.
    apply repeat_spec in Hrow; subst. apply repeat_length.
Qed.

(** C8.  Whatever the four corners are, the rectified card has 700 rows and
    500 columns. *)
Theorem rectify_card_size (cv : OpenCV) (np : NumPy) (img img_rgb : image)
    (rectangle : contour) :
  argsort_contract np -> warp_contract cv -> length rectangle = 4%nat ->
  exists card, rectify cv np img img_rgb rectangle = Ok card /\ has_shape 700 500 card.
Proof.
  intros Hnp Hwarp Hlen.
  destruct (rectify_returns cv np img img_rgb rectangle Hnp Hlen)
    as (rect_points & _ & _ & Hr).
  eexists; split; [exact Hr|]. apply Hwarp.
Qed.

Lemma rectify_card_size_witness :
  exists card,
    rectify scripted_cv numpy_insertion (blank_image 140 100) (blank_image 140 100)
      [(3, 2); (90, 40); (80, 130); (1, 100)]%Z = Ok card /\
    has_shape 700 500 card.
Proof.
  apply (rectify_card_size scripted_cv numpy_insertion).
  - exact numpy_insertion_ok.
  - exact scripted_cv_warp.
  - reflexivity.
Defined.

(** ** The mask loop *)

Lemma mask_loop_cards (cv : OpenCV) (np : NumPy) (img img_rgb : image)
    (masks : list mask_tensor) (cards0 : list image) :
  argsort_contract np ->
  exists cards,
    mask_loop cv np img img_rgb masks cards0 = Ok (cards0 ++ cards) /\
    Forall2 (fun quad card => rectify cv np img img_rgb quad = Ok card)
            (found_quadrilaterals cv masks) cards.
Proof.
  intros Hnp. revert cards0.
  induction masks as [|m masks IH]; intros cards0; simpl.
  - exists []. rewrite app_nil_r. split; [reflexivity | constructor].
  - unfold found_quadrilaterals in *; simpl.
    destruct (process_full_mask cv (to_binary_mask m)) as [quad|] eqn:E.
    + destruct (rectify_returns cv np img img_rgb quad Hnp
                  (process_full_mask_Some cv _ quad E)) as (rp & _ & _ & Hr).
      rewrite Hr; simpl bind.
      destruct (IH (cards0 ++ [warpPerspective_lanczos4 cv img_rgb
                                 (getPerspectiveTransform cv rp dst_points)
                                 (card_width, card_height)]))
        as (cards & Hloop & HF).
      eexists (_ :: cards). rewrite Hloop, <- app_assoc. split; [reflexivity|].
      simpl. constructor; assumption.
    + destruct (IH cards0) as (cards & Hloop & HF).
      exists cards. split; assumption.
Qed.

Lemma found_quadrilaterals_length (cv : OpenCV) (masks : list mask_tensor) :
  (length (found_quadrilaterals cv masks) <= length masks)%nat.
Proof.
  unfold found_quadrilaterals.
  induction masks as [|m masks IH]; simpl; [lia|].
  rewrite length_app. destruct (process_full_mask cv _); simpl; lia.
Qed.

Lemma mask_loop_length (cv : OpenCV) (np : NumPy) (img img_rgb : image)
    (masks : list mask_tensor) (cards0 out : list image) :
  mask_loop cv np img img_rgb masks cards0 = Ok out ->
  (length out <= length cards0 + length masks)%nat.
Proof.
  revert cards0; induction masks as [|m masks IH]; intros cards0; simpl.
  - intros [= <-]. lia.
  - destruct (process_full_mask cv (to_binary_mask m)) as [quad|].
    + destruct (rectify cv np img img_rgb quad) as [card|e]; simpl; [|discriminate].
      intros H. apply IH in H. rewrite length_app in H. simpl in H. lia.
    + intros H. apply IH in H. lia.
Qed.

(** C10.  Only the first ten masks of the detector are looked at: two
    detectors that agree on them lead to the same cards and to the same
    response, and no more than ten cards are returned. *)
Theorem only_first_ten_masks (cv : OpenCV) (np : NumPy) (yolo yolo' : Detector)
    (ih : ImageHashLib) (an : Annoy) (pil : PIL) (st : storage)
    (image_bytes : list Z) (req : request) :
  (forall im, option_map (firstn 10) (predict_masks yolo im) =
              option_map (firstn 10) (predict_masks yolo' im)) ->
  detect_edges_and_corners cv np yolo image_bytes =
    detect_edges_and_corners cv np yolo' image_bytes /\
  upload_image cv np yolo ih an pil st req = upload_image cv np yolo' ih an pil st req /\
  (forall cards, detect_edges_and_corners cv np yolo image_bytes = Ok (Some cards) ->
                 (length cards <= 10)%nat).
Proof.
  intros Hagree.
  assert (Hdetect : forall b, detect_edges_and_corners cv np yolo b =
                              detect_edges_and_corners cv np yolo' b).
  { intros b. unfold detect_edges_and_corners.
    destruct (imdecode cv b) as [[img|]|e]; cbn [bind]; try reflexivity.
    specialize (Hagree (resize cv (cvtColor_BGR2RGB cv img) target_size)).
    destruct (predict_masks yolo _) as [masks|], (predict_masks yolo' _) as [masks'|];
      try discriminate; [|reflexivity].
    change (Some (firstn 10 masks) = Some (firstn 10 masks')) in Hagree.
    assert (E : firstn 10 masks = firstn 10 masks') by congruence.
    now rewrite E. }
  split; [apply Hdetect|]. split.
  - unfold upload_image. destruct (lookup "image" req) as [file|]; [|reflexivity].
    now rewrite Hdetect.
  - intros cards. unfold detect_edges_and_corners.
    destruct (imdecode cv image_bytes) as [[img|]|e]; cbn [bind]; try discriminate.
    destruct (predict_masks yolo _) as [masks|]; [|discriminate].
    destruct (mask_loop _ _ _ _ _ _) as [out|e] eqn:E; simpl; [|discriminate].
    intros [= <-]. apply mask_loop_length in E.
    pose proof (firstn_le_length 10 masks). simpl in *. lia.
Qed.

Lemma only_first_ten_masks_witness :
  (forall im,
     option_map (firstn 10)
       (predict_masks (scripted_detector (repeat (tensor_rows 3) 11)) im) =
     option_map (firstn 10)
       (predict_masks (scripted_detector (repeat (tensor_rows 3) 10)) im)) /\
  detect_edges_and_corners scripted_cv numpy_insertion
    (scripted_detector (repeat (tensor_rows 3) 11)) [255; 216; 255]%Z =
  detect_edges_and_corners scripted_cv numpy_insertion
    (scripted_detector (repeat (tensor_rows 3) 10)) [255; 216; 255]%Z /\
  upload_image scripted_cv numpy_insertion (scripted_detector (repeat (tensor_rows 3) 11))
    strict_imagehash linear_scan plain_pil one_card_storage photo_request =
  upload_image scripted_cv numpy_insertion (scripted_detector (repeat (tensor_rows 3) 10))
    strict_imagehash linear_scan plain_pil one_card_storage photo_request /\
  (forall cards,
     detect_edges_and_corners scripted_cv numpy_insertion
       (scripted_detector (repeat (tensor_rows 3) 11)) [255; 216; 255]%Z = Ok (Some cards) ->
     (length cards <= 10)%nat).
Proof.
  assert (H : forall im,
     option_map (firstn 10)
       (predict_masks (scripted_detector (repeat (tensor_rows 3) 11)) im) =
     option_map (firstn 10)
       (predict_masks (scripted_detector (repeat (tensor_rows 3) 10)) im))
    by (intros im; reflexivity).
  split; [exact H|].
  exact (only_first_ten_masks scripted_cv numpy_insertion _ _ strict_imagehash linear_scan
           plain_pil one_card_storage [255; 216; 255]%Z photo_request H).
Defined.

(** Eleven masks that all outline a card: ten cards come back. *)
Example eleven_masks_ten_cards :
  found_quadrilaterals scripted_cv (repeat (tensor_rows 3) 11) =
    repeat [(0, 0); (100, 0); (100, 140); (0, 140)]%Z 11 /\
  detect_edges_and_corners scripted_cv numpy_insertion
    (scripted_detector (repeat (tensor_rows 3) 11)) [255; 216; 255]%Z =
    Ok (Some (repeat (blank_image 700 500) 10)).
Proof. split; reflexivity. Qed.

(** ** FingerprintGenerator *)

Lemma concat_length_uniform {A : Type} (rows cols : nat) (a : list (list A)) :
  has_shape rows cols a -> length (concat a) = (rows * cols)%nat.
Proof.
  intros [<- HF]. induction HF as [|row a Hrow _ IH]; simpl; [reflexivity|].
  rewrite length_app, IH, Hrow. reflexivity.
Qed.

Lemma hash_vector_length (n : nat) (h : image_hash) :
  has_shape n n h -> length (hash_vector h) = (n * n)%nat.
Proof.
  intros H. unfold hash_vector. rewrite length_map. now apply concat_length_uniform.
Qed.

Lemma compute_robust_hash_image (ih : ImageHashLib) (im : pil_image) :
  hash_contract ih ->
  exists hp ha hd,
    phash ih (PILImage im) 32 = Ok hp /\
    average_hash ih (PILImage im) 32 = Ok ha /\
    dhash ih (PILImage im) 32 = Ok hd /\
    has_shape 32 32 hp /\ has_shape 32 32 ha /\ has_shape 32 32 hd /\
    compute_robust_hash ih (PILImage im) = Ok (hash_vector hp, hash_vector ha, hash_vector hd).
Proof.
  intros H.
  destruct (H phash (or_introl eq_refl) im 32%nat) as (hp & Ep & Sp).
  destruct (H average_hash (or_intror (or_introl eq_refl)) im 32%nat) as (ha & Ea & Sa).
  destruct (H dhash (or_intror (or_intror (or_introl eq_refl))) im 32%nat) as (hd & Ed & Sd).
  exists hp, ha, hd. repeat (split; [assumption|]).
  unfold compute_robust_hash. now rewrite Ep, Ea, Ed.
Qed.

(** The entry at row [r], column [c] of an array, in its row-major
    flattening. *)
Lemma nth_concat_uniform {A : Type} (cols : nat) (a : list (list A)) (d : A) :
  Forall (fun row => length row = cols) a ->
  forall r c, (r < length a)%nat -> (c < cols)%nat ->
    nth (cols * r + c) (concat a) d = nth c (nth r a []) d.
Proof.
  induction 1 as [|row a Hrow _ IH]; intros r c Hr Hc; simpl in Hr; [lia|].
  destruct r as [|r]; cbn [concat nth].
  - rewrite Nat.mul_0_r, Nat.add_0_l. apply app_nth1. now rewrite Hrow.
  - replace (cols * S r + c)%nat with (length row + (cols * r + c))%nat
      by (rewrite Hrow; lia).
    rewrite app_nth2_plus. apply IH; [lia | assumption].
Qed.

Lemma nth_three_blocks {A : Type} (n : nat) (l1 l2 l3 : list A) (d : A) (k : nat) :
  length l1 = n -> length l2 = n -> (k < n)%nat ->
  nth k (l1 ++ l2 ++ l3) d = nth k l1 d /\
  nth (n + k) (l1 ++ l2 ++ l3) d = nth k l2 d /\
  nth (n + n + k) (l1 ++ l2 ++ l3) d = nth k l3 d.
Proof.
  intros H1 H2 Hk. subst n. repeat split.
  - apply app_nth1. assumption.
  - rewrite app_nth2_plus. apply app_nth1. now rewrite H2.
  - rewrite <- Nat.add_assoc, app_nth2_plus.
    rewrite <- H2, app_nth2_plus. reflexivity.
Qed.

Lemma to_rgb_same (pil pil' : PIL) (detected_image : image) :
  same_conversions pil pil' -> to_rgb pil' detected_image = to_rgb pil detected_image.
Proof.
  intros [Hfrom Hconv]. unfold to_rgb. cbv zeta. rewrite <- Hfrom.
  destruct (String.eqb _ _); now rewrite <- ?Hconv.
Qed.

Lemma compute_robust_hash_same (ih ih' : ImageHashLib) (im : pil_image) :
  same_hashes ih ih' ->
  compute_robust_hash ih' (PILImage im) = compute_robust_hash ih (PILImage im).
Proof.
  intros H. unfold compute_robust_hash.
  rewrite <- (H phash (or_introl eq_refl)),
          <- (H average_hash (or_intror (or_introl eq_refl))),
          <- (H dhash (or_intror (or_intror (or_introl eq_refl)))).
  reflexivity.
Qed.

(** C9.  Two byte-identical images get the same fingerprint, in two runs of
    the program whose libraries hash and convert images alike: nothing but
    the image enters it.  The fingerprint is the bits of the [phash], the
    [average_hash] and the [dhash] of the image at hash size 32, in this
    order and each row by row, a set bit as [1.0] and a clear bit as [0.0]:
    3072 entries, the bit in row [r] and column [c] of the three hashes at
    the positions [32 r + c], [1024 + 32 r + c] and [2048 + 32 r + c]. *)
Theorem fingerprint_deterministic (ih ih' : ImageHashLib) (pil pil' : PIL)
    (image1 image2 : image) :
  hash_contract ih -> same_hashes ih ih' -> same_conversions pil pil' ->
  image1 = image2 ->
  exists (hp ha hd : image_hash) (fingerprint : list float),
    phash ih (PILImage (to_rgb pil image1)) 32 = Ok hp /\
    average_hash ih (PILImage (to_rgb pil image1)) 32 = Ok ha /\
    dhash ih (PILImage (to_rgb pil image1)) 32 = Ok hd /\
    compute_robust_hash ih (PILImage (to_rgb pil image1))
      = Ok (map (fun bit : bool => if bit then 1%Qc else 0%Qc) (concat hp),
            map (fun bit : bool => if bit then 1%Qc else 0%Qc) (concat ha),
            map (fun bit : bool => if bit then 1%Qc else 0%Qc) (concat hd)) /\
    compute_robust_hash ih' (PILImage (to_rgb pil' image2))
      = compute_robust_hash ih (PILImage (to_rgb pil image1)) /\
    detected_embedding ih pil image1 = Ok fingerprint /\
    detected_embedding ih' pil' image2 = Ok fingerprint /\
    fingerprint = map (fun bit : bool => if bit then 1%Qc else 0%Qc)
                      (concat hp ++ concat ha ++ concat hd) /\
    length (concat hp) = 1024%nat /\
    length (concat ha) = 1024%nat /\
    length (concat hd) = 1024%nat /\
    length fingerprint = 3072%nat /\
    Forall (fun x => x = 0%Qc \/ x = 1%Qc) fingerprint /\
    forall r c, (r < 32)%nat -> (c < 32)%nat ->
      nth (32 * r + c) fingerprint 0%Qc
        = (if nth c (nth r hp []) false then 1%Qc else 0%Qc) /\
      nth (1024 + (32 * r + c)) fingerprint 0%Qc
        = (if nth c (nth r ha []) false then 1%Qc else 0%Qc) /\
      nth (2048 + (32 * r + c)) fingerprint 0%Qc
        = (if nth c (nth r hd []) false then 1%Qc else 0%Qc).
Proof.
  intros H Hhash Hpil <-.
  destruct (compute_robust_hash_image ih (to_rgb pil image1) H)
    as (hp & ha & hd & Ep & Ea & Ed & Sp & Sa & Sd & Hc).
  pose proof (concat_length_uniform 32 32 hp Sp) as Lp.
  pose proof (concat_length_uniform 32 32 ha Sa) as La.
  pose proof (concat_length_uniform 32 32 hd Sd) as Ld.
  change (32 * 32)%nat with 1024%nat in Lp, La, Ld.
  set (value := fun bit : bool => if bit then 1%Qc else 0%Qc).
  assert (Hrun : detected_embedding ih pil image1
                 = Ok (map value (concat hp ++ concat ha ++ concat hd))).
  { unfold detected_embedding. cbv zeta. rewrite Hc. cbn [bind].
    unfold hash_vector. now rewrite !map_app. }
  exists hp, ha, hd, (map value (concat hp ++ concat ha ++ concat hd)).
  repeat (split; [assumption|]).
  split.
  { now rewrite (to_rgb_same pil pil' image1 Hpil),
                (compute_robust_hash_same ih ih' _ Hhash). }
  split; [exact Hrun|].
  split.
  { unfold detected_embedding. cbv zeta.
    rewrite (to_rgb_same pil pil' image1 Hpil),
            (compute_robust_hash_same ih ih' _ Hhash).
    exact Hrun. }
  split; [reflexivity|].
  repeat (split; [assumption|]).
  split.
  { rewrite length_map, !length_app, Lp, La, Ld. reflexivity. }
  split.
  { apply Forall_map, Forall_forall. intros [|] _; cbn; auto. }
  intros r c Hr Hc'.
  assert (Hk : (32 * r + c < 1024)%nat) by lia.
  destruct (nth_three_blocks 1024 (concat hp) (concat ha) (concat hd) false
              (32 * r + c) Lp La Hk) as (N1 & N2 & N3).
  destruct Sp as [Rp Fp], Sa as [Ra Fa], Sd as [Rd Fd].
  change 0%Qc with (value false).
  change 2048%nat with (1024 + 1024)%nat.
  rewrite !map_nth, N1, N2, N3.
  rewrite (nth_concat_uniform 32 hp false Fp r c), (nth_concat_uniform 32 ha false Fa r c),
          (nth_concat_uniform 32 hd false Fd r c) by (rewrite ?Rp, ?Ra, ?Rd; assumption).
  repeat split.
Qed.

Lemma parity_hash_shape (k : nat) (im : pil_image) (n : nat) :
  has_shape n n (parity_hash k im n).
Proof.
  unfold parity_hash; split.
  - now rewrite length_map, length_seq.
  - apply Forall_map, Forall_forall. intros r _.
    now rewrite length_map, length_seq.
Qed.

Lemma strict_imagehash_ok : hash_contract strict_imagehash.
Proof.
  intros hash_fn [<-|[<-|[<-|[]]]] im n; simpl;
    eexists; (split; [reflexivity | apply parity_hash_shape]).
Qed.

Lemma strict_imagehash_rejects : rejects_hash_objects strict_imagehash.
Proof.
  intros hash_fn [<-|[<-|[<-|[]]]] h n; reflexivity.
Qed.

Lemma fingerprint_deterministic_witness :
  exists (hp ha hd : image_hash) (fingerprint : list float),
    phash strict_imagehash (PILImage (to_rgb plain_pil spot_card)) 32 = Ok hp /\
    average_hash strict_imagehash (PILImage (to_rgb plain_pil spot_card)) 32 = Ok ha /\
    dhash strict_imagehash (PILImage (to_rgb plain_pil spot_card)) 32 = Ok hd /\
    compute_robust_hash strict_imagehash (PILImage (to_rgb plain_pil spot_card))
      = Ok (map (fun bit : bool => if bit then 1%Qc else 0%Qc) (concat hp),
            map (fun bit : bool => if bit then 1%Qc else 0%Qc) (concat ha),
            map (fun bit : bool => if bit then 1%Qc else 0%Qc) (concat hd)) /\
    compute_robust_hash strict_imagehash (PILImage (to_rgb plain_pil spot_card))
      = compute_robust_hash strict_imagehash (PILImage (to_rgb plain_pil spot_card)) /\
    detected_embedding strict_imagehash plain_pil spot_card = Ok fingerprint /\
    detected_embedding strict_imagehash plain_pil spot_card = Ok fingerprint /\
    fingerprint = map (fun bit : bool => if bit then 1%Qc else 0%Qc)
                      (concat hp ++ concat ha ++ concat hd) /\
    length (concat hp) = 1024%nat /\
    length (concat ha) = 1024%nat /\
    length (concat hd) = 1024%nat /\
    length fingerprint = 3072%nat /\
    Forall (fun x => x = 0%Qc \/ x = 1%Qc) fingerprint /\
    forall r c, (r < 32)%nat -> (c < 32)%nat ->
      nth (32 * r + c) fingerprint 0%Qc
        = (if nth c (nth r hp []) false then 1%Qc else 0%Qc) /\
      nth (1024 + (32 * r + c)) fingerprint 0%Qc
        = (if nth c (nth r ha []) false then 1%Qc else 0%Qc) /\
      nth (2048 + (32 * r + c)) fingerprint 0%Qc
        = (if nth c (nth r hd []) false then 1%Qc else 0%Qc).
Proof.
  apply (fingerprint_deterministic strict_imagehash strict_imagehash
           plain_pil plain_pil spot_card spot_card).
  - exact strict_imagehash_ok.
  - intros hash_fn _ im hash_size. reflexivity.
  - split; reflexivity.
  - reflexivity.
Defined.

(** ** NearestNeighborMatcher *)

(** The index object a load returns has the dimension and the metric of
    the object that loads. *)
Lemma load_dimension (an : Annoy) (loader : annoy_index) (st : storage)
    (index : annoy_index) :
  load an loader st = Ok index ->
  dimension index = dimension loader /\ metric index = metric loader.
Proof.
  unfold load. destruct (annoy_index_file st) as [saved|]; [|discriminate].
  destruct (Nat.eqb_spec (dimension saved) (dimension loader)) as [Hd|Hd];
    cbn [andb].
  - destruct (String.eqb_spec (metric saved) (metric loader)) as [Hm|Hm].
    + intros [= <-]. now split.
    + destruct (load_foreign an loader saved) as [read|e]; cbn [bind]; [|discriminate].
      intros [= <-]. now split.
  - destruct (load_foreign an loader saved) as [read|e]; cbn [bind]; [|discriminate].
    intros [= <-]. now split.
Qed.

(** A file is read back as saved by an index of its dimension and metric. *)
Lemma load_saved (an : Annoy) (st : storage) (saved : annoy_index) :
  annoy_index_file st = Some saved ->
  load an (AnnoyIndex (dimension saved) (metric saved)) st = Ok saved.
Proof.
  intros Hfile. unfold load. rewrite Hfile. cbn [AnnoyIndex dimension metric].
  now rewrite Nat.eqb_refl, String.eqb_refl.
Qed.

Lemma match_embedding_first_hit (an : Annoy) (st : storage) (index : annoy_index)
    (embedding : list float) (i : nat) (others : list nat) (d : float)
    (ds : list float) (card_id : string) :
  load an (AnnoyIndex 3072 "euclidean") st = Ok index ->
  length embedding = 3072%nat ->
  search an index embedding 5 = (i :: others, d :: ds) ->
  nth_error (map fst (hash_db_json st)) i = Some card_id ->
  match_embedding an st embedding
    = Ok {| returned := card_id; printed_distance := d |}.
Proof.
  intros Hload Hlen Hsearch Hid.
  destruct (load_dimension an _ st index Hload) as [Hdim _].
  cbn [AnnoyIndex dimension] in Hdim.
  unfold match_embedding, get_nns_by_vector. rewrite Hload. cbn [bind].
  rewrite Hlen, Hdim, Nat.eqb_refl. cbn [bind].
  rewrite Hsearch. cbn [fst snd getitem nth_error bind].
  unfold getitem. rewrite Hid. reflexivity.
Qed.

(** C5 (amended).  The matcher asks the Euclidean index for 5 neighbours and
    returns the card identifier mapped to the first of them, and nothing
    else; the distance of that neighbour is printed, the other four
    candidates are dropped. *)
Theorem find_matching_card_returns_nearest_id (ih : ImageHashLib) (an : Annoy)
    (pil : PIL) (st : storage) (index : annoy_index) (detected_image : image)
    (embedding : list float) (i : nat) (others : list nat) (d : float)
    (ds : list float) (card_id : string) :
  detected_embedding ih pil detected_image = Ok embedding ->
  length embedding = 3072%nat ->
  load an (AnnoyIndex 3072 "euclidean") st = Ok index ->
  search an index embedding 5 = (i :: others, d :: ds) ->
  nth_error (map fst (hash_db_json st)) i = Some card_id ->
  find_matching_card ih an pil st detected_image
    = Ok {| returned := card_id; printed_distance := d |}.
Proof.
  intros Hemb Hlen Hload Hsearch Hid.
  unfold find_matching_card. rewrite Hemb. simpl bind.
  now apply (match_embedding_first_hit an st index embedding i others d ds).
Qed.

Lemma find_matching_card_returns_nearest_id_witness :
  find_matching_card strict_imagehash linear_scan plain_pil six_card_storage
    (blank_image 700 500)
  = Ok {| returned := "base1-1"; printed_distance := 0%Qc |}.
Proof.
  apply (find_matching_card_returns_nearest_id strict_imagehash linear_scan plain_pil
           six_card_storage
           {| dimension := 3072; metric := "euclidean";
              items := map (fun k => (k, leading_ones k)) (seq 0 6); trees_requested := 10 |}
           (blank_image 700 500) zero_embedding 0 [1; 2; 3; 4]%nat 0%Qc
           [Z2f 1; Z2f 2; Z2f 3; Z2f 4]).
  - vm_compute. reflexivity.
  - reflexivity.
  - reflexivity.
  - vm_compute. reflexivity.
  - reflexivity.
Defined.

(** C5 as stated fails: the value the matcher returns does not carry the
    distance.  Two queries, at distance 0 and at a positive distance from the
    first card, return one and the same result. *)
Lemma match_result_omits_distance :
  detected_embedding strict_imagehash plain_pil (blank_image 700 500) = Ok zero_embedding /\
  detected_embedding strict_imagehash plain_pil spot_card = Ok last_bit_embedding /\
  exists run run',
    find_matching_card strict_imagehash linear_scan plain_pil six_card_storage
      (blank_image 700 500) = Ok run /\
    find_matching_card strict_imagehash linear_scan plain_pil six_card_storage
      spot_card = Ok run' /\
    returned run = returned run' /\
    printed_distance run = 0%Qc /\
    printed_distance run' <> 0%Qc.
Proof.
  split; [vm_compute; reflexivity|].
  split; [vm_compute; reflexivity|].
  exists {| returned := "base1-1"; printed_distance := 0%Qc |},
         {| returned := "base1-1"; printed_distance := 1%Qc |}.
  split; [vm_compute; reflexivity|].
  split; [vm_compute; reflexivity|].
  split; [reflexivity|]. split; [reflexivity|].
  simpl. discriminate.
Qed.

(** ** The request handler *)

Lemma match_loop_ids (ih : ImageHashLib) (an : Annoy) (pil : PIL) (st : storage)
    (cards : list image) (i : nat) (matches : list (nat * string)) :
  (forall card, exists run, find_matching_card ih an pil st card = Ok run) ->
  exists ids,
    Forall2 (fun card id => exists run,
               find_matching_card ih an pil st card = Ok run /\ returned run = id)
            cards ids /\
    match_loop ih an pil st cards i matches = Ok (matches ++ enumerate_from i ids).
Proof.
  intros Hall. revert i matches.
  induction cards as [|card cards IH]; intros i matches; simpl.
  - exists []. split; [constructor|]. unfold enumerate_from; simpl.
    now rewrite app_nil_r.
  - destruct (Hall card) as (run & Hrun). rewrite Hrun; simpl bind.
    destruct (IH (S i) (matches ++ [(i, returned run)])) as (ids & HF & Hloop).
    exists (returned run :: ids). split.
    + constructor; [now exists run | assumption].
    + rewrite Hloop, <- app_assoc. reflexivity.
Qed.

(** C7 (amended).  A mask for which [process_full_mask] returns [None] (no
    contour, or no polygon of four vertices) is skipped and leaves no trace;
    every other mask among the first ten, whatever the shape of its
    quadrilateral, is rectified and contributes one entry, numbered in
    order, to the result list of the completed request. *)
Theorem upload_image_skips_failed_masks (cv : OpenCV) (np : NumPy) (yolo : Detector)
    (ih : ImageHashLib) (an : Annoy) (pil : PIL) (st : storage) (req : request)
    (file : upload) (img : image) (masks : list mask_tensor) :
  argsort_contract np ->
  lookup "image" req = Some file ->
  filename file <> "" ->
  imdecode cv (stream file) = Ok (Some img) ->
  predict_masks yolo (resize cv (cvtColor_BGR2RGB cv img) target_size) = Some masks ->
  (forall card, exists run, find_matching_card ih an pil st card = Ok run) ->
  exists cards ids,
    Forall2 (fun quad card => rectify cv np img (cvtColor_BGR2RGB cv img) quad = Ok card)
      (found_quadrilaterals cv (firstn 10 masks)) cards /\
    Forall2 (fun card id => exists run,
               find_matching_card ih an pil st card = Ok run /\ returned run = id)
      cards ids /\
    detect_edges_and_corners cv np yolo (stream file) = Ok (Some cards) /\
    upload_image cv np yolo ih an pil st req = Ok (JCards (enumerate_from 0 ids), 200%nat).
Proof.
  intros Hnp Hfile Hname Himg Hmasks Hall.
  destruct (mask_loop_cards cv np img (cvtColor_BGR2RGB cv img) (firstn 10 masks) [] Hnp)
    as (cards & Hloop & Hquads).
  destruct (match_loop_ids ih an pil st cards 0 [] Hall) as (ids & Hids & Hmatch).
  exists cards, ids.
  assert (Hdetect : detect_edges_and_corners cv np yolo (stream file) = Ok (Some cards)).
  { unfold detect_edges_and_corners. rewrite Himg. cbn [bind]. cbv zeta.
    rewrite Hmasks. now rewrite Hloop. }
  repeat split; try assumption.
  unfold upload_image. rewrite Hfile.
  destruct (String.eqb_spec (filename file) "") as [E|_]; [contradiction|].
  rewrite Hdetect. simpl bind. now rewrite Hmatch.
Qed.

Lemma detected_embedding_length (ih : ImageHashLib) (pil : PIL) (detected_image : image) :
  hash_contract ih ->
  exists embedding,
    detected_embedding ih pil detected_image = Ok embedding /\
    length embedding = 3072%nat.
Proof.
  intros H.
  destruct (compute_robust_hash_image ih (to_rgb pil detected_image) H)
    as (hp & ha & hd & _ & _ & _ & Sp & Sa & Sd & Hc).
  exists (hash_vector hp ++ hash_vector ha ++ hash_vector hd). split.
  - unfold detected_embedding. cbv zeta. now rewrite Hc.
  - rewrite !length_app, (hash_vector_length 32 hp Sp),
      (hash_vector_length 32 ha Sa), (hash_vector_length 32 hd Sd).
    reflexivity.
Qed.

Lemma one_card_storage_matches (card : image) :
  exists run,
    find_matching_card strict_imagehash linear_scan plain_pil one_card_storage card = Ok run.
Proof.
  destruct (detected_embedding_length strict_imagehash plain_pil card strict_imagehash_ok)
    as (embedding & Hemb & Hlen).
  eexists. unfold find_matching_card. rewrite Hemb. simpl bind.
  apply (match_embedding_first_hit linear_scan one_card_storage
           {| dimension := 3072; metric := "euclidean";
              items := [(0%nat, zero_embedding)]; trees_requested := 10 |}
           embedding 0%nat [] (sq_dist zero_embedding embedding) []);
    solve [reflexivity | assumption].
Qed.

Lemma upload_image_skips_failed_masks_witness :
  exists cards ids,
    Forall2 (fun quad card =>
               rectify scripted_cv numpy_insertion (blank_image 140 100)
                 (cvtColor_BGR2RGB scripted_cv (blank_image 140 100)) quad = Ok card)
      (found_quadrilaterals scripted_cv
         (firstn 10 [tensor_rows 3; tensor_rows 0; tensor_rows 1; tensor_rows 5]))
      cards /\
    Forall2 (fun card id => exists run,
               find_matching_card strict_imagehash linear_scan plain_pil
                 one_card_storage card = Ok run /\ returned run = id)
      cards ids /\
    detect_edges_and_corners scripted_cv numpy_insertion
      (scripted_detector [tensor_rows 3; tensor_rows 0; tensor_rows 1; tensor_rows 5])
      [255; 216; 255]%Z = Ok (Some cards) /\
    upload_image scripted_cv numpy_insertion
      (scripted_detector [tensor_rows 3; tensor_rows 0; tensor_rows 1; tensor_rows 5])
      strict_imagehash linear_scan plain_pil one_card_storage photo_request
    = Ok (JCards (enumerate_from 0 ids), 200%nat).
Proof.
  apply (upload_image_skips_failed_masks scripted_cv numpy_insertion
           (scripted_detector [tensor_rows 3; tensor_rows 0; tensor_rows 1; tensor_rows 5])
           strict_imagehash linear_scan plain_pil one_card_storage photo_request
           {| filename := "photo.jpg"; stream := [255; 216; 255]%Z |}
           (blank_image 140 100)
           [tensor_rows 3; tensor_rows 0; tensor_rows 1; tensor_rows 5]).
  - exact numpy_insertion_ok.
  - reflexivity.
  - discriminate.
  - reflexivity.
  - reflexivity.
  - exact one_card_storage_matches.
Defined.

(** Four masks, the second without contour and the third a triangle: two
    entries, numbered 0 and 1. *)
Example upload_image_two_of_four :
  upload_image scripted_cv numpy_insertion
    (scripted_detector [tensor_rows 3; tensor_rows 0; tensor_rows 1; tensor_rows 5])
    strict_imagehash linear_scan plain_pil one_card_storage photo_request
  = Ok (JCards [(0%nat, "base1-4"); (1%nat, "base1-4")], 200%nat).
Proof. vm_compute. reflexivity. Qed.

(** C7 as stated fails: a mask whose quadrilateral is degenerate (four points
    on a line) is not skipped, it yields an entry of the result list. *)
Lemma upload_image_keeps_degenerate_mask :
  process_full_mask scripted_cv (to_binary_mask (tensor_rows 2))
    = Some [(0, 0); (10, 0); (20, 0); (30, 0)]%Z /\
  collinear4 (map ipoint_to_point [(0, 0); (10, 0); (20, 0); (30, 0)]%Z) /\
  upload_image scripted_cv numpy_insertion (scripted_detector [tensor_rows 2])
    strict_imagehash linear_scan plain_pil one_card_storage photo_request
  = Ok (JCards [(0%nat, "base1-4")], 200%nat).
Proof.
  split; [reflexivity|]. split.
  - repeat split; apply Qc_is_canon; reflexivity.
  - vm_compute. reflexivity.
Qed.

(** ** ReferenceIndexBuilder *)

Lemma add_embeddings_same_phash (ih : ImageHashLib) (db db' : hash_db) :
  Forall2 same_card_and_phash db db' ->
  Forall (decodable ih) db -> Forall (decodable ih) db' ->
  forall i index card_ids,
    add_embeddings ih db i index card_ids = add_embeddings ih db' i index card_ids.
Proof.
  induction 1 as [|[id s] [id' s'] db db' [Hid Hph] _ IH]; intros Hd Hd' i index card_ids.
  - reflexivity.
  - inversion Hd as [|? ? (a & d & Ha & Hdh) Hrest]; subst.
    inversion Hd' as [|? ? (a' & d' & Ha' & Hdh') Hrest']; subst.
    simpl in *. subst id'. rewrite <- Hph, Ha, Hdh, Ha', Hdh'.
    destruct (hex_to_hash ih (phash_hex s)) as [hp|e]; simpl; [|reflexivity].
    destruct (compute_robust_hash ih (ImageHashObj hp)) as [[[p ah] dh]|e]; simpl;
      [|reflexivity].
    destruct (add_item index i (p ++ ah ++ dh)) as [index'|e]; simpl; [|reflexivity].
    now apply IH.
Qed.

(** What a successful run of the loop has done. *)
Lemma add_embeddings_Ok (ih : ImageHashLib) (db : hash_db) :
  forall i index card_ids index' card_ids',
    add_embeddings ih db i index card_ids = Ok (index', card_ids') ->
    card_ids' = card_ids ++ map fst db /\
    dimension index' = dimension index /\
    exists vecs,
      items index' = items index ++ enumerate_from i vecs /\
      Forall2 (fun entry v =>
                 length v = dimension index /\
                 exists hp p a d,
                   hex_to_hash ih (phash_hex (snd entry)) = Ok hp /\
                   compute_robust_hash ih (ImageHashObj hp) = Ok (p, a, d) /\
                   v = p ++ a ++ d)
              db vecs.
Proof.
  induction db as [|[id s] db IH]; intros i index card_ids index' card_ids'; simpl.
  - intros [= <- <-]. rewrite !app_nil_r. repeat split.
    exists []. split; [now rewrite app_nil_r | constructor].
  - destruct (hex_to_hash ih (phash_hex s)) as [hp|e] eqn:Ehp; simpl; [|discriminate].
    destruct (hex_to_hash ih (ahash_hex s)) as [ha|e]; simpl; [|discriminate].
    destruct (hex_to_hash ih (dhash_hex s)) as [hd|e]; simpl; [|discriminate].
    destruct (compute_robust_hash ih (ImageHashObj hp)) as [[[p a] d]|e] eqn:Ec; simpl;
      [|discriminate].
    unfold add_item.
    destruct (Nat.eqb_spec (length (p ++ a ++ d)) (dimension index)) as [El|_]; simpl;
      [|discriminate].
    intros H. apply IH in H. simpl in H.
    destruct H as (-> & Hdim & vecs & Hitems & HF).
    rewrite <- app_assoc. repeat split; [assumption|].
    exists ((p ++ a ++ d) :: vecs). split.
    + rewrite Hitems, <- app_assoc. reflexivity.
    + constructor; [|assumption].
      split; [assumption|]. now exists hp, p, a, d.
Qed.

(** C1.  The builder's result is fixed by the card identifiers and the
    [phash] strings alone: changing the stored [ahash] and [dhash] of the
    entries changes neither the vectors inserted nor the outcome. *)
Theorem build_annoy_index_ignores_ahash_dhash (ih : ImageHashLib) (st st' : storage) :
  Forall2 same_card_and_phash (hash_db_json st) (hash_db_json st') ->
  Forall (decodable ih) (hash_db_json st) ->
  Forall (decodable ih) (hash_db_json st') ->
  map_result fst (build_annoy_index ih st) = map_result fst (build_annoy_index ih st').
Proof.
  intros Hsame Hd Hd'. unfold build_annoy_index. cbv zeta.
  rewrite (add_embeddings_same_phash ih _ _ Hsame Hd Hd').
  destruct (add_embeddings ih (hash_db_json st') 0 _ []) as [[index card_ids]|e];
    reflexivity.
Qed.

Lemma build_annoy_index_ignores_ahash_dhash_witness :
  map_result fst (build_annoy_index strict_imagehash one_card_storage)
  = map_result fst (build_annoy_index strict_imagehash one_card_storage').
Proof.
  apply (build_annoy_index_ignores_ahash_dhash strict_imagehash
           one_card_storage one_card_storage').
  - repeat constructor.
  - repeat constructor. vm_compute. eauto.
  - repeat constructor. vm_compute. eauto.
Defined.

(** The one-card database: the specification asks for the 3072 decoded bits,
    the builder raises before it inserts anything. *)
Example build_annoy_index_one_card :
  embedding_of_stored_hashes strict_imagehash
    {| phash_hex := hex256 "ffff"; ahash_hex := hex256 "0000"; dhash_hex := hex256 "0f0f" |}
  = Ok (repeat 1%Qc 1024 ++ repeat 0%Qc 1024
        ++ concat (repeat [0%Qc; 0%Qc; 0%Qc; 0%Qc; 1%Qc; 1%Qc; 1%Qc; 1%Qc] 128)) /\
  build_annoy_index strict_imagehash one_card_storage = Raise AttributeError.
Proof. split; vm_compute; reflexivity. Qed.

(** With a hash library that rejects an [ImageHash] argument, the builder
    raises on every database that has an entry. *)
Lemma build_annoy_index_raises (ih : ImageHashLib) (st : storage) :
  rejects_hash_objects ih -> hash_db_json st <> [] ->
  exists e, build_annoy_index ih st = Raise e.
Proof.
  intros Hrej Hne. unfold build_annoy_index. cbv zeta.
  destruct (hash_db_json st) as [|[id s] db]; [contradiction|]. simpl.
  destruct (hex_to_hash ih (phash_hex s)) as [hp|e]; simpl; [|eauto].
  destruct (hex_to_hash ih (ahash_hex s)) as [ha|e]; simpl; [|eauto].
  destruct (hex_to_hash ih (dhash_hex s)) as [hd|e]; simpl; [|eauto].
  unfold compute_robust_hash.
  rewrite (Hrej phash (or_introl eq_refl) hp 32%nat). simpl. eauto.
Qed.

(** C6.  Two cards with different identifiers and the same stored [phash]
    cannot both be found again: whenever the build completes they have been
    given the same vector, and a query with it returns one identifier. *)
Theorem index_cannot_separate_equal_phash (ih : ImageHashLib) (an : Annoy)
    (st : storage) (a b : string) (sa sb : stored_hashes) :
  hash_db_json st = [(a, sa); (b, sb)] -> a <> b -> phash_hex sa = phash_hex sb ->
  ~ exists index card_ids st',
      build_annoy_index ih st = Ok (index, card_ids, st') /\
      length card_ids = 2%nat /\
      forall k card_id e,
        nth_error card_ids k = Some card_id ->
        nth_error (items index) k = Some (k, e) ->
        exists run, match_embedding an st' e = Ok run /\ returned run = card_id.
Proof.
  intros Hdb Hab Hph (index & card_ids & st' & Hbuild & _ & Hquery).
  unfold build_annoy_index in Hbuild. cbv zeta in Hbuild. rewrite Hdb in Hbuild.
  destruct (add_embeddings ih [(a, sa); (b, sb)] 0 (AnnoyIndex 3072 "euclidean") [])
    as [[index0 ids0]|e] eqn:E; simpl in Hbuild; [|discriminate].
  injection Hbuild as <- <- <-.
  apply add_embeddings_Ok in E. simpl in E.
  destruct E as (-> & _ & vecs & Hitems & HF).
  inversion HF as [|? va ? vecs' (_ & hp & p & ah & dh & Ehp & Ec & ->) HF']; subst.
  inversion HF' as [|? vb ? vecs'' (_ & hp' & p' & ah' & dh' & Ehp' & Ec' & ->) HF'']; subst.
  inversion HF''; subst. simpl in *.
  rewrite <- Hph, Ehp in Ehp'. injection Ehp' as <-.
  rewrite Ec in Ec'. injection Ec' as <- <- <-.
  destruct (Hquery 0%nat a (p ++ ah ++ dh)) as (run & Hrun & Ha);
    [reflexivity | now rewrite Hitems |].
  destruct (Hquery 1%nat b (p ++ ah ++ dh)) as (run' & Hrun' & Hb);
    [reflexivity | now rewrite Hitems |].
  rewrite Hrun in Hrun'. injection Hrun' as <-. congruence.
Qed.

Lemma index_cannot_separate_equal_phash_witness :
  ~ exists index card_ids st',
      build_annoy_index strict_imagehash two_card_storage = Ok (index, card_ids, st') /\
      length card_ids = 2%nat /\
      forall k card_id e,
        nth_error card_ids k = Some card_id ->
        nth_error (items index) k = Some (k, e) ->
        exists run, match_embedding linear_scan st' e = Ok run /\ returned run = card_id.
Proof.
  apply (index_cannot_separate_equal_phash strict_imagehash linear_scan two_card_storage
           "base1-4" "base1-5"
           {| phash_hex := hex256 "ffff"; ahash_hex := hex256 "0000";
              dhash_hex := hex256 "0f0f" |}
           {| phash_hex := hex256 "ffff"; ahash_hex := hex256 "1234";
              dhash_hex := hex256 "abcd" |}).
  - reflexivity.
  - discriminate.
  - reflexivity.
Defined.

(* ================================================================== *)
(** * Further properties of the code *)
(* ================================================================== *)

(** ** MaskToQuadrilateral: the choice of the contour and of the polygon *)

Lemma max_by_first_maximal {A : Type} (key : A -> float) (l : list A) :
  forall best, exists before after,
    best :: l = before ++ max_by key best l :: after /\
    Forall (fun x => (key x < key (max_by key best l))%Qc) before /\
    Forall (fun x => (key x <= key (max_by key best l))%Qc) after.
Proof.
  induction l as [|x l IH]; intros best; simpl.
  - exists [], []. repeat split; constructor.
  - destruct (Qclt_le_dec (key best) (key x)) as [Hlt|Hle].
    + destruct (IH x) as (before & after & Hsplit & Hb & Ha).
      set (r := max_by key x l) in *.
      assert (Hx : (key x <= key r)%Qc).
      { assert (Hin : In x (before ++ r :: after))
          by (rewrite <- Hsplit; now left).
        apply in_app_or in Hin. destruct Hin as [Hin|[Hin|Hin]].
        - rewrite Forall_forall in Hb. now apply Qclt_le_weak, Hb.
        - rewrite Hin. apply Qcle_refl.
        - rewrite Forall_forall in Ha. now apply Ha. }
      exists (best :: before), after.
      split; [simpl; now f_equal|]. split; [|assumption].
      constructor; [|assumption]. eapply Qclt_le_trans; eassumption.
    + destruct (IH best) as (before & after & Hsplit & Hb & Ha).
      set (r := max_by key best l) in *.
      destruct before as [|b before]; simpl in Hsplit.
      * injection Hsplit as Hbest Hl.
        exists [], (x :: l). split; [simpl; now f_equal|]. split; [constructor|].
        constructor; [now rewrite <- Hbest | now rewrite Hl].
      * injection Hsplit as Hb0 Hl. subst b.
        apply Forall_cons_iff in Hb. destruct Hb as [Hbest Hb'].
        exists (best :: x :: before), after.
        split; [simpl; now rewrite Hl|]. split; [|assumption].
        constructor; [assumption|]. constructor; [|assumption].
        eapply Qcle_lt_trans; eassumption.
Qed.

(** X1.  The contour [max(contours, key=cv2.contourArea)] selects is one of
    the contours, no contour has a larger area, and every contour before it
    has a strictly smaller one. *)
Theorem largest_contour_first_maximal (cv : OpenCV) (first : contour)
    (others : list contour) :
  exists before after,
    first :: others = before ++ max_by (contourArea cv) first others :: after /\
    Forall (fun c => (contourArea cv c
                      < contourArea cv (max_by (contourArea cv) first others))%Qc) before /\
    Forall (fun c => (contourArea cv c
                      <= contourArea cv (max_by (contourArea cv) first others))%Qc) after.
Proof. apply max_by_first_maximal. Qed.

Lemma linspace_factors :
  linspace (frac 1 100) (frac 1 10) 10
  = map (fun k => frac k 100) [1; 2; 3; 4; 5; 6; 7; 8; 9; 10]%Z.
Proof.
  unfold linspace. cbn [seq map].
  repeat (apply (f_equal2 cons); [apply Qc_is_canon; vm_compute; reflexivity|]).
  reflexivity.
Qed.

Lemma epsilon_sweep_find (cv : OpenCV) (hull : contour) (factors : list float) :
  forall approx,
    four_vertices approx = false ->
    (if four_vertices (epsilon_sweep cv hull factors approx)
     then Some (epsilon_sweep cv hull factors approx) else None)
    = find four_vertices
        (map (fun f => approxPolyDP cv hull (f * arcLength cv hull true)%Qc true) factors).
Proof.
  induction factors as [|f factors IH]; intros approx H; simpl.
  - now rewrite H.
  - fold (four_vertices (approxPolyDP cv hull (f * arcLength cv hull true)%Qc true)).
    destruct (four_vertices (approxPolyDP cv hull (f * arcLength cv hull true)%Qc true))
      eqn:E.
    + now rewrite E.
    + now apply IH.
Qed.

(** X2.  [process_full_mask] is a first-match search: it returns the first
    polygon with exactly four vertices among the approximation of the largest
    contour at 2% of its perimeter and the approximations of its hull at 1%,
    2%, ..., 10% of the hull's perimeter, and [None] when there is no contour
    or none of the eleven has four vertices. *)
Theorem process_full_mask_first_match (cv : OpenCV) (m : mask) :
  process_full_mask cv m = find four_vertices (polygon_candidates cv m).
Proof.
  unfold process_full_mask, polygon_candidates. cbv zeta.
  destruct (findContours_external cv (morphologyEx_close cv m (ones 5 5)))
    as [|first others]; [reflexivity|].
  set (largest := max_by (contourArea cv) first others).
  set (approx := approxPolyDP cv largest (frac 2 100 * arcLength cv largest true)%Qc true).
  cbn [find]. unfold four_vertices at 1.
  destruct (Nat.eqb (length approx) 4) eqn:E; cbn [negb].
  - now rewrite E.
  - pose proof (epsilon_sweep_find cv (convexHull cv largest)
                  (linspace (frac 1 100) (frac 1 10) 10) approx E) as H.
    unfold sweep_candidates.
    rewrite <- (map_map (fun k => frac k 100)
                  (fun f => approxPolyDP cv (convexHull cv largest)
                              (f * arcLength cv (convexHull cv largest) true)%Qc true)).
    rewrite <- linspace_factors.
    etransitivity; [|exact H]. unfold four_vertices.
    destruct (Nat.eqb (length (epsilon_sweep cv (convexHull cv largest)
                                 (linspace (frac 1 100) (frac 1 10) 10) approx)) 4);
      reflexivity.
Qed.

(** ** PointOrderer: what the ordering keeps and what it fixes *)

Section PointOrdererMore.
Variable np : NumPy.
Hypothesis np_ok : argsort_contract np.

Lemma sort_rectangle_points_perm (ps : list point) :
  exists out, sort_rectangle_points np ps = Ok out /\ Permutation ps out.
Proof.
  destruct (sort_by_key np_ok py ps) as (s & Hs & HPs & _).
  destruct (sort_by_key np_ok px (firstn 2 s)) as (t & Ht & HPt & _).
  destruct (sort_by_key np_ok px (skipn 2 s)) as (b & Hb & HPb & _).
  exists (t ++ rev b). unfold sort_rectangle_points.
  rewrite Hs; cbn [bind]. rewrite Ht; cbn [bind]. rewrite Hb; cbn [bind].
  split; [reflexivity|].
  rewrite HPs, <- (firstn_skipn 2 s) at 1.
  apply Permutation_app; [assumption|].
  rewrite HPb. apply Permutation_rev.
Qed.

(** For separated points the result is fixed by the [y]-sorted arrangement
    of the points, whatever the order they are given in. *)
Lemma sort_rectangle_points_separated (ps : list point) :
  length ps = 4%nat -> top_bottom_separated ps ->
  exists tl tr br bl,
    Permutation ps [tl; tr; br; bl] /\
    (px tl <= px tr /\ px bl <= px br)%Qc /\
    (py tl < py br /\ py tl < py bl /\ py tr < py br /\ py tr < py bl)%Qc /\
    forall qs, Permutation ps qs -> sort_rectangle_points np qs = Ok [tl; tr; br; bl].
Proof.
  intros Hlen Hsep.
  destruct (sort_by_key np_ok py ps) as (s & Hs & HPs & HSs).
  destruct (length_4_inv s) as (a & b & c & d & ->).
  { now rewrite <- (Permutation_length HPs). }
  pose proof (separated_sorted ps a b c d Hsep HPs HSs) as Hbc.
  pose proof (order_pairs_shape np np_ok a b c d) as Hshape. cbv zeta in Hshape.
  destruct Hshape as (tl & tr & br & bl & Hout & Ht & Hb & Hx).
  exists tl, tr, br, bl. split; [|split; [exact Hx|split]].
  - etransitivity; [exact HPs|].
    change [a; b; c; d] with ([a; b] ++ [c; d]).
    change [tl; tr; br; bl] with ([tl; tr] ++ [br; bl]).
    apply Permutation_app; [assumption|].
    etransitivity; [exact Hb|]. apply perm_swap.
  - pose proof (sorted_by_4 py a b c d HSs) as H4.
    apply orderings_complete in Ht, Hb; simpl in Ht, Hb.
    destruct Ht as [E|[E|[]]], Hb as [E'|[E'|[]]];
      injection E as <- <-; injection E' as <- <-; qc_order.
  - intros qs HP.
    destruct (sort_by_key np_ok py qs) as (s' & Hs' & HPs' & HSs').
    assert (HP' : Permutation [a; b; c; d] s').
    { exact (Permutation_trans (Permutation_sym HPs) (Permutation_trans HP HPs')). }
    pose proof (y_sorted_arrangements np np_ok a b c d s' HSs Hbc HP' HSs') as Heq.
    unfold sort_rectangle_points. rewrite Hs'. cbn [bind].
    exact (eq_trans Heq Hout).
Qed.

End PointOrdererMore.

(** X3.  For an array of any number of points the result holds the points of
    the input, each as often as the input does: no corner is dropped,
    duplicated or altered. *)
Theorem sort_rectangle_points_keeps_points (np : NumPy) (ps : list point) :
  argsort_contract np ->
  exists out, sort_rectangle_points np ps = Ok out /\ Permutation ps out.
Proof. intros Hnp. now apply sort_rectangle_points_perm. Qed.

Lemma sort_rectangle_points_keeps_points_witness :
  exists out,
    sort_rectangle_points numpy_insertion [pt 5 1; pt 2 7; pt 9 3; pt 4 4; pt 0 0] = Ok out /\
    Permutation [pt 5 1; pt 2 7; pt 9 3; pt 4 4; pt 0 0] out.
Proof.
  apply (sort_rectangle_points_keeps_points numpy_insertion). exact numpy_insertion_ok.
Defined.

(** X4.  The four corners of an upright rectangle, given in any order, come
    out as top-left, top-right, bottom-right, bottom-left. *)
Theorem sort_rectangle_points_upright_rectangle (np : NumPy) (x0 y0 x1 y1 : float)
    (ps : list point) :
  argsort_contract np -> (x0 < x1)%Qc -> (y0 < y1)%Qc ->
  Permutation (upright_rectangle x0 y0 x1 y1) ps ->
  sort_rectangle_points np ps = Ok (upright_rectangle x0 y0 x1 y1).
Proof.
  intros Hnp Hx Hy HP. unfold upright_rectangle in *.
  destruct (sort_rectangle_points_separated np Hnp ps) as (tl & tr & br & bl & HPo & Hxs & Hys & Hall).
  - now rewrite <- (Permutation_length HP).
  - exists (x0, y0), (x1, y0), (x1, y1), (x0, y1). split; [now symmetry|].
    unfold py; simpl. tauto.
  - rewrite (Hall ps (Permutation_refl ps)).
    assert (HQ : Permutation [(x0, y0); (x1, y0); (x1, y1); (x0, y1)] [tl; tr; br; bl])
      by (etransitivity; eassumption).
    apply orderings_complete in HQ; simpl in HQ.
    repeat (destruct HQ as [HQ|HQ];
            [injection HQ as <- <- <- <-; unfold px, py in *; simpl in *;
             first [reflexivity | exfalso; qc_order] |]).
    contradiction.
Qed.

Lemma sort_rectangle_points_upright_rectangle_witness :
  sort_rectangle_points numpy_insertion card_corners
  = Ok (upright_rectangle (Z2f 0) (Z2f 0) (Z2f 100) (Z2f 140)).
Proof.
  apply (sort_rectangle_points_upright_rectangle numpy_insertion).
  - exact numpy_insertion_ok.
  - reflexivity.
  - reflexivity.
  - unfold upright_rectangle, card_corners.
    change (Z2f 0, Z2f 0) with (pt 0 0). change (Z2f 100, Z2f 0) with (pt 100 0).
    change (Z2f 100, Z2f 140) with (pt 100 140). change (Z2f 0, Z2f 140) with (pt 0 140).
    apply Permutation_trans with (pt 0 0 :: [pt 100 140; pt 0 140; pt 100 0]).
    + apply perm_skip.
      apply Permutation_trans with (pt 100 140 :: [pt 100 0; pt 0 140]).
      * apply perm_swap.
      * apply perm_skip, perm_swap.
    + apply perm_swap.
Defined.

(** X5.  Ordering is idempotent on separated corners: ordering the result
    again returns it unchanged. *)
Theorem sort_rectangle_points_idempotent (np : NumPy) (ps out : list point) :
  argsort_contract np -> length ps = 4%nat -> top_bottom_separated ps ->
  sort_rectangle_points np ps = Ok out ->
  sort_rectangle_points np out = Ok out.
Proof.
  intros Hnp Hlen Hsep Hout.
  destruct (sort_rectangle_points_separated np Hnp ps Hlen Hsep)
    as (tl & tr & br & bl & HPo & _ & _ & Hall).
  rewrite (Hall ps (Permutation_refl ps)) in Hout. injection Hout as <-.
  now apply Hall.
Qed.

Lemma sort_rectangle_points_idempotent_witness :
  sort_rectangle_points numpy_insertion [pt 0 0; pt 100 0; pt 100 140; pt 0 140]
  = Ok [pt 0 0; pt 100 0; pt 100 140; pt 0 140].
Proof.
  apply (sort_rectangle_points_idempotent numpy_insertion card_corners).
  - exact numpy_insertion_ok.
  - reflexivity.
  - exists (pt 0 0), (pt 100 0), (pt 100 140), (pt 0 140). split.
    + unfold card_corners.
      apply Permutation_trans with (pt 0 0 :: [pt 100 140; pt 0 140; pt 100 0]).
      * apply perm_swap.
      * apply perm_skip.
        apply Permutation_trans with (pt 100 140 :: [pt 100 0; pt 0 140]).
        -- apply perm_skip, perm_swap.
        -- apply perm_swap.
    + repeat split; reflexivity.
  - reflexivity.
Defined.

(** ** The mask loop and the binary masks *)

(** X6.  The masks are processed one after the other and independently:
    running the loop over [masks1 ++ masks2] is running it over [masks1] and
    then, with the cards collected so far, over [masks2]. *)
Theorem mask_loop_app (cv : OpenCV) (np : NumPy) (img img_rgb : image)
    (masks1 masks2 : list mask_tensor) (cards : list image) :
  mask_loop cv np img img_rgb (masks1 ++ masks2) cards
  = (collected <- mask_loop cv np img img_rgb masks1 cards ;;
     mask_loop cv np img img_rgb masks2 collected).
Proof.
  revert cards. induction masks1 as [|m masks1 IH]; intros cards; simpl.
  - reflexivity.
  - destruct (process_full_mask cv (to_binary_mask m)) as [rectangle|].
    + destruct (rectify cv np img img_rgb rectangle) as [warped|e]; simpl.
      * apply IH.
      * reflexivity.
    + apply IH.
Qed.

Lemma astype_uint8_zero_one (v : float) :
  v = 0%Qc \/ v = 1%Qc ->
  ((astype_uint8 v * 255) mod 256 = 0 \/ (astype_uint8 v * 255) mod 256 = 255)%Z.
Proof.
  intros [->| ->]; [left | right]; reflexivity.
Qed.

(** X7.  A mask tensor of [0.0] and [1.0] entries becomes a raster of 0 and
    255 of the same shape: background 0, object 255. *)
Theorem to_binary_mask_binary (m : mask_tensor) :
  zero_one_tensor m ->
  binary_mask (to_binary_mask m) /\
  length (to_binary_mask m) = length m /\
  Forall2 (fun row row' => length row' = length row) m (to_binary_mask m).
Proof.
  intros H. unfold to_binary_mask. split; [|split].
  - unfold binary_mask. apply Forall_map. revert H. apply Forall_impl.
    intros row Hrow. apply Forall_map. revert Hrow. apply Forall_impl.
    intros v Hv. now apply astype_uint8_zero_one.
  - apply length_map.
  - clear H. induction m as [|row m IH]; simpl; constructor.
    + apply length_map.
    + exact IH.
Qed.

Lemma to_binary_mask_binary_witness :
  binary_mask (to_binary_mask [[0%Qc; 1%Qc; 1%Qc]; [1%Qc; 0%Qc; 0%Qc]]) /\
  length (to_binary_mask [[0%Qc; 1%Qc; 1%Qc]; [1%Qc; 0%Qc; 0%Qc]]) = 2%nat /\
  Forall2 (fun row row' => length row' = length row)
    [[0%Qc; 1%Qc; 1%Qc]; [1%Qc; 0%Qc; 0%Qc]]
    (to_binary_mask [[0%Qc; 1%Qc; 1%Qc]; [1%Qc; 0%Qc; 0%Qc]]).
Proof.
  apply (to_binary_mask_binary [[0%Qc; 1%Qc; 1%Qc]; [1%Qc; 0%Qc; 0%Qc]]).
  unfold zero_one_tensor.
  repeat (apply Forall_cons || apply Forall_nil); (now left) || (now right).
Defined.

Lemma mask_loop_nothing_found (cv : OpenCV) (np : NumPy) (img img_rgb : image)
    (masks : list mask_tensor) (cards : list image) :
  found_quadrilaterals cv masks = [] ->
  mask_loop cv np img img_rgb masks cards = Ok cards.
Proof.
  unfold found_quadrilaterals.
  induction masks as [|m masks IH]; simpl; intros H; [reflexivity|].
  apply app_eq_nil in H. destruct H as [Hm Hrest].
  destruct (process_full_mask cv (to_binary_mask m)); [discriminate|].
  now apply IH.
Qed.

(** Every card the loop adds is an image of 700 rows and 500 columns. *)
Lemma mask_loop_card_sizes (cv : OpenCV) (np : NumPy) (img img_rgb : image)
    (masks : list mask_tensor) :
  warp_contract cv ->
  forall cards out,
    Forall (has_shape 700 500) cards ->
    mask_loop cv np img img_rgb masks cards = Ok out ->
    Forall (has_shape 700 500) out.
Proof.
  intros Hwarp. induction masks as [|m masks IH]; intros cards out Hcards; simpl.
  - now intros [= <-].
  - destruct (process_full_mask cv (to_binary_mask m)) as [rectangle|]; [|now apply IH].
    unfold rectify at 1.
    destruct (sort_rectangle_points np _) as [rect_points|e]; simpl; [|discriminate].
    apply IH. apply Forall_app. split; [assumption|].
    constructor; [apply Hwarp | constructor].
Qed.

(** X8.  Every card [detect_edges_and_corners] returns is an image of 700
    rows and 500 columns. *)
Theorem detected_cards_canonical_size (cv : OpenCV) (np : NumPy) (yolo : Detector)
    (image_bytes : list Z) (cards : list image) :
  warp_contract cv ->
  detect_edges_and_corners cv np yolo image_bytes = Ok (Some cards) ->
  Forall (has_shape 700 500) cards.
Proof.
  intros Hwarp. unfold detect_edges_and_corners.
  destruct (imdecode cv image_bytes) as [[img|]|e0]; cbn [bind]; try discriminate.
  destruct (predict_masks yolo _) as [masks|]; [|discriminate].
  destruct (mask_loop _ _ _ _ _ _) as [out|e] eqn:E; simpl; [|discriminate].
  intros [= <-].
  exact (mask_loop_card_sizes cv np img _ _ Hwarp [] out (Forall_nil _) E).
Qed.

Lemma detected_cards_canonical_size_witness :
  detect_edges_and_corners scripted_cv numpy_insertion
    (scripted_detector [tensor_rows 3; tensor_rows 0; tensor_rows 1; tensor_rows 5])
    [255; 216; 255]%Z = Ok (Some [blank_image 700 500; blank_image 700 500]) /\
  Forall (has_shape 700 500) [blank_image 700 500; blank_image 700 500].
Proof.
  split; [reflexivity|].
  apply (detected_cards_canonical_size scripted_cv numpy_insertion
           (scripted_detector [tensor_rows 3; tensor_rows 0; tensor_rows 1; tensor_rows 5])
           [255; 216; 255]%Z).
  - exact scripted_cv_warp.
  - reflexivity.
Defined.

(** ** NearestNeighborMatcher: outcomes *)

Lemma getitem_In {A : Type} (l : list A) (i : nat) (x : A) :
  getitem l i = Ok x -> In x l.
Proof.
  unfold getitem. destruct (nth_error l i) as [y|] eqn:E; [|discriminate].
  intros [= <-]. now apply nth_error_In in E.
Qed.

(** The outcomes of a lookup once the index file has loaded. *)
Lemma match_embedding_loaded (an : Annoy) (st : storage) (index : annoy_index)
    (embedding : list float) :
  load an (AnnoyIndex 3072 "euclidean") st = Ok index ->
  match match_embedding an st embedding with
  | Ok run =>
      length embedding = 3072%nat /\
      exists i others d ds,
        search an index embedding 5 = (i :: others, d :: ds) /\
        nth_error (card_keys st) i = Some (returned run) /\
        printed_distance run = d
  | Raise e =>
      e = IndexError /\
      (length embedding <> 3072%nat \/
       fst (search an index embedding 5) = [] \/
       snd (search an index embedding 5) = [] \/
       exists i, hd_error (fst (search an index embedding 5)) = Some i /\
                 (length (card_keys st) <= i)%nat)
  end.
Proof.
  intros Hload.
  destruct (load_dimension an _ st index Hload) as [Hdim _].
  cbn [AnnoyIndex dimension] in Hdim.
  unfold match_embedding, get_nns_by_vector, card_keys. rewrite Hload. cbn [bind].
  rewrite Hdim.
  destruct (Nat.eqb_spec (length embedding) 3072) as [Hlen|Hlen]; cbn [bind];
    [|split; [reflexivity | now left]].
  destruct (search an index embedding 5) as [positions distances]. cbn [fst snd].
  destruct positions as [|i others]; cbn [getitem nth_error bind];
    [split; [reflexivity | right; now left]|].
  unfold getitem at 1.
  destruct (nth_error (map fst (hash_db_json st)) i) as [card_id|] eqn:Eid; cbn [bind].
  2: { split; [reflexivity|]. right; right; right. exists i. split; [reflexivity|].
       now apply nth_error_None. }
  destruct distances as [|d ds]; cbn [getitem nth_error bind];
    [split; [reflexivity | right; right; now left]|].
  split; [assumption|]. exists i, others, d, ds. repeat split. exact Eid.
Qed.

(** X9.  The lookup of an embedding in the persisted index, with
    [hash_db.json] in place.  Without an index file it raises [OSError], and
    whatever the load of the file raises is raised.  Once the index has
    loaded there are two outcomes.  The lookup returns the key of
    [hash_db.json] at the position of the first neighbour the index reports
    for the query, which then has 3072 entries, and prints the distance of
    that neighbour.  Or it raises [IndexError]: for a query of another
    length, for an answer of the index without a neighbour, or for a first
    neighbour at a position the database does not have. *)
Theorem match_embedding_outcomes (an : Annoy) (st : storage) (embedding : list float) :
  (annoy_index_file st = None -> match_embedding an st embedding = Raise OSError) /\
  (forall e, load an (AnnoyIndex 3072 "euclidean") st = Raise e ->
             match_embedding an st embedding = Raise e) /\
  (forall index, load an (AnnoyIndex 3072 "euclidean") st = Ok index ->
     match match_embedding an st embedding with
     | Ok run =>
         In (returned run) (card_keys st) /\
         length embedding = 3072%nat /\
         exists i others d ds,
           search an index embedding 5 = (i :: others, d :: ds) /\
           nth_error (card_keys st) i = Some (returned run) /\
           printed_distance run = d
     | Raise e =>
         e = IndexError /\
         (length embedding <> 3072%nat \/
          fst (search an index embedding 5) = [] \/
          snd (search an index embedding 5) = [] \/
          exists i, hd_error (fst (search an index embedding 5)) = Some i /\
                    (length (card_keys st) <= i)%nat)
     end).
Proof.
  split; [|split].
  - intros Hfile. unfold match_embedding, load. now rewrite Hfile.
  - intros e Hload. unfold match_embedding. now rewrite Hload.
  - intros index Hload.
    pose proof (match_embedding_loaded an st index embedding Hload) as H.
    destruct (match_embedding an st embedding) as [run|e]; [|exact H].
    destruct H as (Hlen & i & others & d & ds & Hs & Hid & Hd).
    split; [now apply nth_error_In in Hid|].
    split; [assumption|]. now exists i, others, d, ds.
Qed.

Lemma match_embedding_outcomes_witness :
  match_embedding linear_scan one_card_storage' zero_embedding = Raise OSError /\
  match_embedding linear_scan stale_index_storage zero_embedding = Raise OSError /\
  match match_embedding linear_scan six_card_storage (repeat 0%Qc 768) with
  | Ok run =>
      In (returned run) (card_keys six_card_storage) /\
      length (repeat 0%Qc 768) = 3072%nat /\
      exists i others d ds,
        search linear_scan
          {| dimension := 3072; metric := "euclidean";
             items := map (fun k => (k, leading_ones k)) (seq 0 6);
             trees_requested := 10 |} (repeat 0%Qc 768) 5 = (i :: others, d :: ds) /\
        nth_error (card_keys six_card_storage) i = Some (returned run) /\
        printed_distance run = d
  | Raise e =>
      e = IndexError /\
      (length (repeat 0%Qc 768) <> 3072%nat \/
       fst (search linear_scan
              {| dimension := 3072; metric := "euclidean";
                 items := map (fun k => (k, leading_ones k)) (seq 0 6);
                 trees_requested := 10 |} (repeat 0%Qc 768) 5) = [] \/
       snd (search linear_scan
              {| dimension := 3072; metric := "euclidean";
                 items := map (fun k => (k, leading_ones k)) (seq 0 6);
                 trees_requested := 10 |} (repeat 0%Qc 768) 5) = [] \/
       exists i,
         hd_error (fst (search linear_scan
                          {| dimension := 3072; metric := "euclidean";
                             items := map (fun k => (k, leading_ones k)) (seq 0 6);
                             trees_requested := 10 |} (repeat 0%Qc 768) 5)) = Some i /\
         (length (card_keys six_card_storage) <= i)%nat)
  end.
Proof.
  split; [|split].
  - apply (proj1 (match_embedding_outcomes linear_scan one_card_storage' zero_embedding)).
    reflexivity.
  - apply (proj1 (proj2 (match_embedding_outcomes linear_scan stale_index_storage
                           zero_embedding))).
    reflexivity.
  - apply (proj2 (proj2 (match_embedding_outcomes linear_scan six_card_storage
                           (repeat 0%Qc 768)))).
    reflexivity.
Defined.

(** A lookup that returns, returns a key of [hash_db.json]. *)
Lemma match_embedding_key (an : Annoy) (st : storage) (embedding : list float)
    (run : match_run) :
  match_embedding an st embedding = Ok run -> In (returned run) (card_keys st).
Proof.
  intros Hrun.
  destruct (load an (AnnoyIndex 3072 "euclidean") st) as [index|e] eqn:Hload.
  - pose proof (match_embedding_loaded an st index embedding Hload) as H.
    rewrite Hrun in H. destruct H as (_ & i & _ & _ & _ & _ & Hid & _).
    now apply nth_error_In in Hid.
  - unfold match_embedding in Hrun. rewrite Hload in Hrun. discriminate.
Qed.

Lemma find_matching_card_key (ih : ImageHashLib) (an : Annoy) (pil : PIL)
    (st : storage) (card : image) (run : match_run) :
  find_matching_card ih an pil st card = Ok run -> In (returned run) (card_keys st).
Proof.
  unfold find_matching_card.
  destruct (detected_embedding ih pil card) as [embedding|e]; cbn [bind]; [|discriminate].
  apply match_embedding_key.
Qed.

(** ** The request handler: rejected, failed and answered requests *)

Section UploadFacts.
Variable cv : OpenCV.
Variable np : NumPy.
Variable yolo : Detector.
Variable ih : ImageHashLib.
Variable an : Annoy.
Variable pil : PIL.
Variable st : storage.

Lemma match_loop_Ok (cards : list image) :
  forall i matches out,
    match_loop ih an pil st cards i matches = Ok out ->
    exists ids,
      out = matches ++ enumerate_from i ids /\
      length ids = length cards /\
      Forall (fun id => In id (card_keys st)) ids.
Proof.
  induction cards as [|card cards IH]; intros i matches out; simpl.
  - intros [= <-]. exists []. unfold enumerate_from; simpl.
    rewrite app_nil_r. repeat split. constructor.
  - destruct (find_matching_card ih an pil st card) as [run|e] eqn:Erun; cbn [bind];
      [|discriminate].
    intros H. apply IH in H. destruct H as (ids & -> & Hlen & Hkeys).
    exists (returned run :: ids). rewrite <- app_assoc. repeat split.
    + simpl. now rewrite Hlen.
    + constructor; [|assumption].
      now apply (find_matching_card_key ih an pil st card run).
Qed.

Lemma match_loop_Raise (cards : list image) (card : image) (e : exn) :
  In card cards -> find_matching_card ih an pil st card = Raise e ->
  forall i matches, exists e', match_loop ih an pil st cards i matches = Raise e'.
Proof.
  intros Hin Hfail. induction cards as [|c cards IH]; [contradiction|].
  intros i matches. simpl.
  destruct (find_matching_card ih an pil st c) as [run|e'] eqn:Ec; cbn [bind].
  - destruct Hin as [->|Hin]; [congruence|]. now apply IH.
  - now exists e'.
Qed.

Lemma enumerate_from_fst {A : Type} (i : nat) (l : list A) :
  map fst (enumerate_from i l) = seq i (length l).
Proof.
  unfold enumerate_from. revert i. induction l as [|x l IH]; intros i; simpl.
  - reflexivity.
  - now rewrite IH.
Qed.

Lemma enumerate_from_snd {A : Type} (i : nat) (l : list A) :
  map snd (enumerate_from i l) = l.
Proof.
  unfold enumerate_from. revert i. induction l as [|x l IH]; intros i; simpl.
  - reflexivity.
  - now rewrite IH.
Qed.

Lemma detect_at_most_ten (image_bytes : list Z) (cards : list image) :
  detect_edges_and_corners cv np yolo image_bytes = Ok (Some cards) ->
  (length cards <= 10)%nat.
Proof.
  unfold detect_edges_and_corners.
  destruct (imdecode cv image_bytes) as [[img|]|e0]; cbn [bind]; try discriminate.
  destruct (predict_masks yolo _) as [masks|]; [|discriminate].
  destruct (mask_loop _ _ _ _ _ _) as [out|e] eqn:E; simpl; [|discriminate].
  intros [= <-]. apply mask_loop_length in E.
  pose proof (firstn_le_length 10 masks). simpl in *. lia.
Qed.

(** X10.  A request is answered with status 400 exactly when it has no
    [image] part or the part has an empty file name; the body then is the
    matching error message. *)
Theorem upload_image_rejection (req : request) (body : json) :
  upload_image cv np yolo ih an pil st req = Ok (body, 400%nat) <->
  (lookup "image" req = None /\ body = JError "No file part") \/
  (exists file, lookup "image" req = Some file /\ filename file = "" /\
                body = JError "No selected file").
Proof.
  unfold upload_image. destruct (lookup "image" req) as [file|].
  - destruct (String.eqb_spec (filename file) "") as [E|E].
    + split.
      * intros [= <-]. right. now exists file.
      * intros [[H _]|(f & [= <-] & _ & ->)]; [discriminate | reflexivity].
    + split.
      * destruct (detect_edges_and_corners cv np yolo (stream file)) as [[cards|]|e];
          cbn [bind]; try discriminate.
        destruct (match_loop ih an pil st cards 0 []) as [matches|e]; cbn [bind];
          discriminate.
      * intros [[H _]|(f & [= <-] & Hf & _)]; [discriminate | contradiction].
  - split.
    + intros [= <-]. now left.
    + intros [[_ ->]|(f & H & _)]; [reflexivity | discriminate].
Qed.

(** X11.  An upload the decoder does not turn into an image never gets an
    error response.  When the decoder returns [None], as it does for bytes
    that are no image, [detect_edges_and_corners] returns [None] and the
    handler fails with [TypeError] when it iterates over it; this is the
    only way for [detect_edges_and_corners] to return [None].  When the
    decoder raises, as it does on an upload without bytes, the request
    fails with the decoder's exception. *)
Theorem upload_image_undecodable (req : request) (file : upload) :
  lookup "image" req = Some file -> filename file <> "" ->
  match imdecode cv (stream file) with
  | Ok None =>
      detect_edges_and_corners cv np yolo (stream file) = Ok None /\
      upload_image cv np yolo ih an pil st req = Raise TypeError
  | Ok (Some img) =>
      detect_edges_and_corners cv np yolo (stream file) <> Ok None
  | Raise e =>
      detect_edges_and_corners cv np yolo (stream file) = Raise e /\
      upload_image cv np yolo ih an pil st req = Raise e
  end.
Proof.
  intros Hfile Hname.
  unfold upload_image. rewrite Hfile.
  destruct (String.eqb_spec (filename file) "") as [E|_]; [contradiction|].
  unfold detect_edges_and_corners.
  destruct (imdecode cv (stream file)) as [[img|]|e]; cbn [bind].
  - destruct (predict_masks yolo _) as [masks|]; [|discriminate].
    destruct (mask_loop _ _ _ _ _ _) as [out|e]; cbn [bind]; discriminate.
  - split; reflexivity.
  - split; reflexivity.
Qed.

(** X12.  When none of the first ten masks yields a quadrilateral, the
    response is an empty list of cards with status 200, whatever the hash
    library, the index and the database are: the matcher is not consulted. *)
Theorem upload_image_nothing_found (req : request) (file : upload) (img : image)
    (masks : list mask_tensor) :
  lookup "image" req = Some file -> filename file <> "" ->
  imdecode cv (stream file) = Ok (Some img) ->
  predict_masks yolo (resize cv (cvtColor_BGR2RGB cv img) target_size) = Some masks ->
  found_quadrilaterals cv (firstn 10 masks) = [] ->
  upload_image cv np yolo ih an pil st req = Ok (JCards [], 200%nat).
Proof.
  intros Hfile Hname Himg Hmasks Hnone.
  unfold upload_image. rewrite Hfile.
  destruct (String.eqb_spec (filename file) "") as [E|_]; [contradiction|].
  unfold detect_edges_and_corners. rewrite Himg. cbn [bind]. cbv zeta. rewrite Hmasks.
  now rewrite (mask_loop_nothing_found cv np img _ _ [] Hnone).
Qed.

(** X13.  In every response with a list of cards the status is 200, there
    are at most ten entries, their [card_index] values are 0, 1, 2, ... in
    this order, and every [closest_match_id] is a key of [hash_db.json]. *)
Theorem upload_image_cards (req : request) (cards : list (nat * string))
    (status : nat) :
  upload_image cv np yolo ih an pil st req = Ok (JCards cards, status) ->
  status = 200%nat /\
  (length cards <= 10)%nat /\
  map fst cards = seq 0 (length cards) /\
  Forall (fun id => In id (card_keys st)) (map snd cards).
Proof.
  unfold upload_image. destruct (lookup "image" req) as [file|]; [|discriminate].
  destruct (String.eqb (filename file) ""); [discriminate|].
  destruct (detect_edges_and_corners cv np yolo (stream file)) as [[detected|]|e] eqn:Ed;
    cbn [bind]; try discriminate.
  destruct (match_loop ih an pil st detected 0 []) as [matches|e] eqn:Em; cbn [bind];
    [|discriminate].
  intros [= <- <-]. split; [reflexivity|].
  apply match_loop_Ok in Em. destruct Em as (ids & -> & Hlen & Hkeys). simpl.
  apply detect_at_most_ten in Ed.
  assert (Hl : length (enumerate_from 0 ids) = length ids).
  { rewrite <- (length_map fst), enumerate_from_fst. apply length_seq. }
  rewrite Hl, enumerate_from_fst, enumerate_from_snd.
  repeat split; [lia | assumption].
Qed.

(** X14.  A failure of the matcher is not recovered per card: when the
    matcher raises for one of the detected cards, the whole request fails
    and no card is reported. *)
Theorem upload_image_match_failure (req : request) (file : upload)
    (cards : list image) (card : image) (e : exn) :
  lookup "image" req = Some file -> filename file <> "" ->
  detect_edges_and_corners cv np yolo (stream file) = Ok (Some cards) ->
  In card cards -> find_matching_card ih an pil st card = Raise e ->
  exists e', upload_image cv np yolo ih an pil st req = Raise e'.
Proof.
  intros Hfile Hname Hd Hin Hfail.
  unfold upload_image. rewrite Hfile.
  destruct (String.eqb_spec (filename file) "") as [E|_]; [contradiction|].
  rewrite Hd. cbn [bind].
  destruct (match_loop_Raise cards card e Hin Hfail 0%nat []) as (e' & ->).
  now exists e'.
Qed.

End UploadFacts.

Lemma upload_image_undecodable_witness :
  (detect_edges_and_corners scripted_cv numpy_insertion
     (scripted_detector [tensor_rows 3]) [110; 111; 112]%Z = Ok None /\
   upload_image scripted_cv numpy_insertion (scripted_detector [tensor_rows 3])
     strict_imagehash linear_scan plain_pil one_card_storage broken_request
   = Raise TypeError) /\
  (detect_edges_and_corners scripted_cv numpy_insertion
     (scripted_detector [tensor_rows 3]) [] = Raise CvError /\
   upload_image scripted_cv numpy_insertion (scripted_detector [tensor_rows 3])
     strict_imagehash linear_scan plain_pil one_card_storage empty_request
   = Raise CvError).
Proof.
  split.
  - apply (upload_image_undecodable scripted_cv numpy_insertion
             (scripted_detector [tensor_rows 3]) strict_imagehash linear_scan plain_pil
             one_card_storage broken_request
             {| filename := "broken.jpg"; stream := [110; 111; 112]%Z |}).
    + reflexivity.
    + discriminate.
  - apply (upload_image_undecodable scripted_cv numpy_insertion
             (scripted_detector [tensor_rows 3]) strict_imagehash linear_scan plain_pil
             one_card_storage empty_request
             {| filename := "empty.jpg"; stream := [] |}).
    + reflexivity.
    + discriminate.
Defined.

Lemma upload_image_nothing_found_witness :
  upload_image scripted_cv numpy_insertion
    (scripted_detector [tensor_rows 0; tensor_rows 1])
    strict_imagehash linear_scan plain_pil one_card_storage' photo_request
  = Ok (JCards [], 200%nat).
Proof.
  apply (upload_image_nothing_found scripted_cv numpy_insertion
           (scripted_detector [tensor_rows 0; tensor_rows 1])
           strict_imagehash linear_scan plain_pil one_card_storage' photo_request
           {| filename := "photo.jpg"; stream := [255; 216; 255]%Z |}
           (blank_image 140 100) [tensor_rows 0; tensor_rows 1]).
  - reflexivity.
  - discriminate.
  - reflexivity.
  - reflexivity.
  - reflexivity.
Defined.

Lemma upload_image_cards_witness :
  200%nat = 200%nat /\
  (length [(0%nat, "base1-4"); (1%nat, "base1-4")] <= 10)%nat /\
  map fst [(0%nat, "base1-4"); (1%nat, "base1-4")] = seq 0 2 /\
  Forall (fun id => In id (card_keys one_card_storage))
         (map snd [(0%nat, "base1-4"); (1%nat, "base1-4")]).
Proof.
  apply (upload_image_cards scripted_cv numpy_insertion
           (scripted_detector [tensor_rows 3; tensor_rows 0; tensor_rows 1; tensor_rows 5])
           strict_imagehash linear_scan plain_pil one_card_storage photo_request).
  vm_compute. reflexivity.
Defined.

Lemma upload_image_match_failure_witness :
  find_matching_card strict_imagehash linear_scan plain_pil one_card_storage'
    (blank_image 700 500) = Raise OSError /\
  exists e',
    upload_image scripted_cv numpy_insertion (scripted_detector [tensor_rows 3])
      strict_imagehash linear_scan plain_pil one_card_storage' photo_request = Raise e'.
Proof.
  assert (H : find_matching_card strict_imagehash linear_scan plain_pil one_card_storage'
                (blank_image 700 500) = Raise OSError) by (vm_compute; reflexivity).
  split; [exact H|].
  apply (upload_image_match_failure scripted_cv numpy_insertion
           (scripted_detector [tensor_rows 3]) strict_imagehash linear_scan plain_pil
           one_card_storage' photo_request
           {| filename := "photo.jpg"; stream := [255; 216; 255]%Z |}
           [blank_image 700 500] (blank_image 700 500) OSError).
  - reflexivity.
  - discriminate.
  - reflexivity.
  - left; reflexivity.
  - exact H.
Defined.

(** ** ReferenceIndexBuilder: a database that does not decode *)

Lemma add_embeddings_undecodable (ih : ImageHashLib) (db : hash_db)
    (entry : string * stored_hashes) (e : exn) :
  In entry db ->
  hex_to_hash ih (phash_hex (snd entry)) = Raise e \/
  hex_to_hash ih (ahash_hex (snd entry)) = Raise e \/
  hex_to_hash ih (dhash_hex (snd entry)) = Raise e ->
  forall i index card_ids, exists e', add_embeddings ih db i index card_ids = Raise e'.
Proof.
  intros Hin Hbad. induction db as [|[id s] db IH]; [contradiction|].
  intros i index card_ids. simpl.
  destruct (hex_to_hash ih (phash_hex s)) as [hp|e1] eqn:Ep; cbn [bind]; [|eauto].
  destruct (hex_to_hash ih (ahash_hex s)) as [ha|e1] eqn:Ea; cbn [bind]; [|eauto].
  destruct (hex_to_hash ih (dhash_hex s)) as [hd|e1] eqn:Ed; cbn [bind]; [|eauto].
  destruct (compute_robust_hash ih (ImageHashObj hp)) as [[[p a] d]|e1]; cbn [bind];
    [|eauto].
  destruct (add_item index i (p ++ a ++ d)) as [index'|e1]; cbn [bind]; [|eauto].
  destruct Hin as [<-|Hin]; [|now apply IH].
  simpl in Hbad. destruct Hbad as [H|[H|H]]; congruence.
Qed.

(** X17.  The build is all or nothing: one stored hash string that does not
    decode, be it the [ahash] or [dhash] that the embedding does not use,
    makes the whole build fail, and no index is returned or written. *)
Theorem build_annoy_index_undecodable_entry (ih : ImageHashLib) (st : storage)
    (entry : string * stored_hashes) (e : exn) :
  In entry (hash_db_json st) ->
  hex_to_hash ih (phash_hex (snd entry)) = Raise e \/
  hex_to_hash ih (ahash_hex (snd entry)) = Raise e \/
  hex_to_hash ih (dhash_hex (snd entry)) = Raise e ->
  exists e', build_annoy_index ih st = Raise e'.
Proof.
  intros Hin Hbad. unfold build_annoy_index. cbv zeta.
  destruct (add_embeddings_undecodable ih _ entry e Hin Hbad 0%nat
              (AnnoyIndex 3072 "euclidean") []) as (e' & ->).
  now exists e'.
Qed.

Lemma build_annoy_index_undecodable_entry_witness :
  exists e', build_annoy_index strict_imagehash damaged_storage = Raise e'.
Proof.
  apply (build_annoy_index_undecodable_entry strict_imagehash damaged_storage
           ("base1-4", {| phash_hex := hex256 "0000"; ahash_hex := "xyz";
                          dhash_hex := hex256 "abcd" |}) ValueError).
  - left; reflexivity.
  - right; left. reflexivity.
Defined.
